(** * salt/states/restconf.py: the restconf state module

    A shallow embedding of [config_manage] and of the [_restDiff] class,
    together with the part of Python they rest on: the values a state file
    can carry, [==] on them, [str], and the [json.loads(json.dumps(x))]
    round trip.  The proxy functions behind [__salt__], the option behind
    [__opts__] and the [DeepDiff] constructor are parameters of the
    embedding; a reference model of [DeepDiff] at its default settings is
    given for concrete runs. *)

From Stdlib Require Import Bool List String Ascii ZArith Lia.
From Stdlib Require Import Numbers.DecimalString.
From Stdlib Require DecimalPos.
From Stdlib Require Import Permutation.
Import ListNotations.
Local Open Scope list_scope.
Local Open Scope string_scope.

(** ** Python values *)

Module Py.

(** Hashable values that occur as dictionary keys. *)
Inductive key : Type :=
| KNone
| KBool (b : bool)
| KInt (z : Z)
| KStr (s : string).

(** The values of a rendered state file and of a decoded JSON document.
    Floating point numbers are left out of the model, and a string is a
    sequence of code points below 256. *)
#[local] Unset Elimination Schemes.
Inductive value : Type :=
| VNone
| VBool (b : bool)
| VInt (z : Z)
| VStr (s : string)
| VList (l : list value)
| VDict (d : list (key * value)).
#[local] Set Elimination Schemes.

Definition dict := list (key * value).

(** [bool] is a subclass of [int]: [True == 1] and they hash alike. *)
Definition key_num (k : key) : option Z :=
  match k with
  | KBool b => Some (Z.b2z b)
  | KInt z => Some z
  | _ => None
  end.

Definition key_eqb (a b : key) : bool :=
  match a, b with
  | KNone, KNone => true
  | KStr s, KStr t => String.eqb s t
  | _, _ =>
      match key_num a, key_num b with
      | Some x, Some y => Z.eqb x y
      | _, _ => false
      end
  end.

(** [d[k]] and [k in d]. *)
Fixpoint dict_get {A : Type} (k : key) (d : list (key * A)) : option A :=
  match d with
  | [] => None
  | (k', v) :: d' => if key_eqb k k' then Some v else dict_get k d'
  end.

Definition dict_mem {A : Type} (k : key) (d : list (key * A)) : bool :=
  match dict_get k d with Some _ => true | None => false end.

(** [d[k] = v]: an existing entry keeps its place and its key object, a new
    one goes last. *)
Fixpoint dict_set {A : Type} (k : key) (v : A) (d : list (key * A))
  : list (key * A) :=
  match d with
  | [] => [(k, v)]
  | (k', v') :: d' =>
      if key_eqb k k' then (k', v) :: d' else (k', v') :: dict_set k v d'
  end.

(** [a == b]. *)
Fixpoint py_eq (a b : value) {struct a} : bool :=
  match a with
  | VNone => match b with VNone => true | _ => false end
  | VBool x =>
      match b with
      | VBool y => Bool.eqb x y
      | VInt z => Z.eqb (Z.b2z x) z
      | _ => false
      end
  | VInt x =>
      match b with
      | VBool y => Z.eqb x (Z.b2z y)
      | VInt z => Z.eqb x z
      | _ => false
      end
  | VStr s => match b with VStr t => String.eqb s t | _ => false end
  | VList l =>
      match b with
      | VList m =>
          (fix items (l m : list value) {struct l} : bool :=
             match l, m with
             | [], [] => true
             | x :: l', y :: m' => py_eq x y && items l' m'
             | _, _ => false
             end) l m
      | _ => false
      end
  | VDict d =>
      match b with
      | VDict e =>
          Nat.eqb (List.length d) (List.length e)
          && (fix entries (d : dict) : bool :=
                match d with
                | [] => true
                | (k, v) :: d' =>
                    match dict_get k e with
                    | Some w => py_eq v w
                    | None => false
                    end && entries d'
                end) d
      | _ => false
      end
  end.

(** [type(v) is dict]. *)
Definition type_is_dict (v : value) : bool :=
  match v with VDict _ => true | _ => false end.

(** [v is True]. *)
Definition is_True (v : value) : bool :=
  match v with VBool true => true | _ => false end.

(** *** [str] and [repr] *)

Definition str_Z (z : Z) : string := NilEmpty.string_of_int (Z.to_int z).

Fixpoint join (sep : string) (l : list string) : string :=
  match l with
  | [] => ""
  | [s] => s
  | s :: l' => s ++ sep ++ join sep l'
  end.

Fixpoint has_char (c : ascii) (s : string) : bool :=
  match s with
  | EmptyString => false
  | String c' s' => Ascii.eqb c c' || has_char c s'
  end.

Definition hex_digit (n : nat) : ascii :=
  match n with
  | 0 => "0" | 1 => "1" | 2 => "2" | 3 => "3" | 4 => "4" | 5 => "5"
  | 6 => "6" | 7 => "7" | 8 => "8" | 9 => "9" | 10 => "a" | 11 => "b"
  | 12 => "c" | 13 => "d" | 14 => "e" | _ => "f"
  end%char.

Definition squote : ascii := "'"%char.
Definition dquote : ascii := Ascii.ascii_of_nat 34.
Definition backslash : ascii := "\"%char.

Definition repr_char (q c : ascii) : string :=
  let n := Ascii.nat_of_ascii c in
  if Ascii.eqb c q || Ascii.eqb c backslash then String backslash (String c "")
  else if Nat.eqb n 9 then String backslash "t"
  else if Nat.eqb n 10 then String backslash "n"
  else if Nat.eqb n 13 then String backslash "r"
  else if Nat.ltb n 32 || Nat.eqb n 127
          || (Nat.leb 128 n && Nat.leb n 160) || Nat.eqb n 173 then
    String backslash
      (String "x" (String (hex_digit (n / 16)) (String (hex_digit (n mod 16)) "")))
  else String c "".

Fixpoint repr_chars (q : ascii) (s : string) : string :=
  match s with
  | EmptyString => ""
  | String c s' => repr_char q c ++ repr_chars q s'
  end.

(** [repr] of a [str]: the quote is the single one unless the text holds a
    single and no double quote; of the code points below 256 the controls
    (below 32, 127 to 159), the no-break space (160) and the soft hyphen
    (173) are not printable and are written as escapes. *)
Definition repr_str (s : string) : string :=
  let q := if has_char squote s && negb (has_char dquote s)
           then dquote else squote in
  String q (repr_chars q s ++ String q "").

Definition repr_key (k : key) : string :=
  match k with
  | KNone => "None"
  | KBool true => "True"
  | KBool false => "False"
  | KInt z => str_Z z
  | KStr s => repr_str s
  end.

Fixpoint py_repr (v : value) : string :=
  match v with
  | VNone => "None"
  | VBool true => "True"
  | VBool false => "False"
  | VInt z => str_Z z
  | VStr s => repr_str s
  | VList l => "[" ++ join ", " (map py_repr l) ++ "]"
  | VDict d =>
      "{" ++ join ", "
               (map (fun kv : key * value =>
                       repr_key (fst kv) ++ ": " ++ py_repr (snd kv)) d)
          ++ "}"
  end.

(** [str(v)], also what [format] puts in place of an empty-spec field. *)
Definition py_str (v : value) : string :=
  match v with
  | VStr s => s
  | _ => py_repr v
  end.

(** *** The [json] module *)

(** How [json.dumps] writes a dictionary key. *)
Definition json_key (k : key) : string :=
  match k with
  | KStr s => s
  | KBool true => "true"
  | KBool false => "false"
  | KNone => "null"
  | KInt z => str_Z z
  end.

Section Load.

Variable decode : value -> value.

(** The decoder builds the dictionary entry by entry: of two keys written
    alike the first keeps its place and the last its value. *)
Fixpoint load_pairs (d : dict) (acc : dict) {struct d} : dict :=
  match d with
  | [] => acc
  | (k, x) :: d' =>
      load_pairs d' (dict_set (KStr (json_key k)) (decode x) acc)
  end.

End Load.

(** [json.loads(json.dumps(v))]: every key comes back as the string it was
    written as. *)
Fixpoint json_roundtrip (v : value) : value :=
  match v with
  | VList l => VList (map json_roundtrip l)
  | VDict d => VDict (load_pairs json_roundtrip d [])
  | _ => v
  end.

(** A dictionary holds a key once. *)
Fixpoint unique_keys {A : Type} (d : list (key * A)) : bool :=
  match d with
  | [] => true
  | (k, _) :: d' => negb (dict_mem k d') && unique_keys d'
  end.

(** The values Python can build: every dictionary in them has unique keys. *)
Fixpoint wf (v : value) : bool :=
  match v with
  | VList l => forallb wf l
  | VDict d => unique_keys d && forallb (fun kv : key * value => wf (snd kv)) d
  | _ => true
  end.

(** The values a JSON document decodes to: every key is a string. *)
Fixpoint json_shaped (v : value) : bool :=
  match v with
  | VList l => forallb json_shaped l
  | VDict d =>
      unique_keys d
      && forallb (fun kv : key * value =>
                    match fst kv with
                    | KStr _ => json_shaped (snd kv)
                    | _ => false
                    end) d
  | _ => true
  end.

(** Induction on values, through lists and dictionaries. *)
Section ValueInd.

Variable P : value -> Prop.
Hypothesis HNone : P VNone.
Hypothesis HBool : forall b, P (VBool b).
Hypothesis HInt : forall z, P (VInt z).
Hypothesis HStr : forall s, P (VStr s).
Hypothesis HList : forall l, Forall P l -> P (VList l).
Hypothesis HDict :
  forall d, Forall (fun kv : key * value => P (snd kv)) d -> P (VDict d).

Fixpoint value_ind (v : value) : P v :=
  match v with
  | VNone => HNone
  | VBool b => HBool b
  | VInt z => HInt z
  | VStr s => HStr s
  | VList l =>
      HList l
        ((fix all (l : list value) : Forall P l :=
            match l with
            | [] => Forall_nil P
            | x :: l' => Forall_cons x (value_ind x) (all l')
            end) l)
  | VDict d =>
      HDict d
        ((fix all (d : dict) : Forall (fun kv => P (snd kv)) d :=
            match d with
            | [] => Forall_nil _
            | kv :: d' =>
                Forall_cons kv (value_ind (snd kv)) (all d')
            end) d)
  end.

End ValueInd.

End Py.

Import Py.

(** What the [json] module documents of [loads(dumps(v))], stated apart
    from the function [json_roundtrip]: [None], booleans, integers and
    strings come back as they are, and a list comes back item by item.  A
    dictionary comes back with string keys, each once, which are the
    spellings of its keys, and under the spelling of a key stands what the
    last entry so spelled held, decoded in turn. *)
#[local] Unset Elimination Schemes.
Inductive json_decoded : value -> value -> Prop :=
| decoded_none : json_decoded VNone VNone
| decoded_bool (b : bool) : json_decoded (VBool b) (VBool b)
| decoded_int (z : Z) : json_decoded (VInt z) (VInt z)
| decoded_str (s : string) : json_decoded (VStr s) (VStr s)
| decoded_list (l l' : list value) :
    Forall2 json_decoded l l' -> json_decoded (VList l) (VList l')
| decoded_dict (d d' : dict) :
    unique_keys d' = true ->
    (forall k, In k (map fst d')
               <-> exists k0, In k0 (map fst d) /\ k = KStr (json_key k0)) ->
    (forall before k0 x0 after,
        d = (before ++ (k0, x0) :: after)%list ->
        (forall k1, In k1 (map fst after) -> json_key k1 <> json_key k0) ->
        exists x', dict_get (KStr (json_key k0)) d' = Some x'
                   /\ json_decoded x0 x') ->
    json_decoded (VDict d) (VDict d').
#[local] Set Elimination Schemes.

(** ** Effects

    A call of [config_manage] talks to the device through the proxy, logs,
    prints and builds a [DeepDiff].  A computation takes the device state
    and gives back its result (or the exception it raised), the state the
    device is left in, and the events it emitted, oldest first. *)

(** What [salt.utils.http.query] hands back through the proxy: a [status]
    and, each only when the reply had one, the decoded [dict] and the raw
    [body]. *)
Record response : Type := mkResponse {
  status : Z;
  resp_dict : option value;
  resp_body : option value
}.

Inductive exn : Type :=
| KeyError (k : string)
| UnboundLocalError (n : string).

Section Effects.

Variable dev : Type.
Variable report : Type.

Inductive printed : Type :=
| PText (s : string)
| PReport (r : report)
| PPostContent (payload : value).

Inductive event : Type :=
| EvLogCritical (msg : string)
| EvGetData (uri : value)
| EvSetData (uri method payload : value)
| EvDeepDiff (t1 t2 : value)
| EvPrint (p : printed).

Definition M (A : Type) : Type := dev -> (exn + A) * dev * list event.

Definition pure {A : Type} (a : A) : M A := fun d => (inr a, d, []).

Definition bind {A B : Type} (m : M A) (f : A -> M B) : M B :=
  fun d =>
    match m d with
    | (inl e, d1, t1) => (inl e, d1, t1)
    | (inr a, d1, t1) =>
        match f a d1 with
        | (r, d2, t2) => (r, d2, (t1 ++ t2)%list)
        end
    end.

Definition raise {A : Type} (e : exn) : M A := fun d => (inl e, d, []).

Definition emit (e : event) : M unit := fun d => (inr tt, d, [e]).

Definition is_set_data (e : event) : bool :=
  match e with EvSetData _ _ _ => true | _ => false end.

Definition is_get_data (e : event) : bool :=
  match e with EvGetData _ => true | _ => false end.

Definition is_deep_diff (e : event) : bool :=
  match e with EvDeepDiff _ _ => true | _ => false end.

(** The device I/O of a run, and the diffs it computed. *)
Definition device_io (t : list event) : list event :=
  filter (fun e => is_get_data e || is_set_data e) t.

Definition writes (t : list event) : list event := filter is_set_data t.

Definition reads (t : list event) : list event := filter is_get_data t.

Definition diffs (t : list event) : list event := filter is_deep_diff t.

(** What a run returned (nothing when it raised) and what it emitted. *)
Definition returned {A : Type} (x : (exn + A) * dev * list event)
  : option A :=
  match fst (fst x) with
  | inr a => Some a
  | inl _ => None
  end.

Definition events {A : Type} (x : (exn + A) * dev * list event)
  : list event := snd x.

End Effects.

Arguments PText {report}.
Arguments PReport {report}.
Arguments PPostContent {report}.
Arguments EvLogCritical {report}.
Arguments EvGetData {report}.
Arguments EvSetData {report}.
Arguments EvDeepDiff {report}.
Arguments EvPrint {report}.
Arguments pure {dev report A}.
Arguments bind {dev report A B}.
Arguments raise {dev report A}.
Arguments emit {dev report}.
Arguments is_set_data {report}.
Arguments is_get_data {report}.
Arguments is_deep_diff {report}.
Arguments device_io {report}.
Arguments writes {report}.
Arguments reads {report}.
Arguments diffs {report}.
Arguments returned {dev report A}.
Arguments events {dev report A}.

Declare Scope py_scope.
Delimit Scope py_scope with py.
Notation "x <- c ;; k" := (bind c (fun x => k))
  (at level 61, c at next level, right associativity) : py_scope.
Notation "c ;; k" := (bind c (fun _ => k))
  (at level 61, right associativity) : py_scope.
Local Open Scope py_scope.

(** ** The state module *)

(** The dictionary [ret] that a state function returns. *)
Record state_ret : Type := mkRet {
  ret_name : string;
  ret_result : value;
  ret_changes : list (key * option string);
  ret_comment : string
}.

(** [config_manage] returns the bare [False] or the dictionary [ret]. *)
Inductive retval : Type :=
| RFalse
| RRet (r : state_ret).

Definition set_result (v : value) (r : state_ret) : state_ret :=
  mkRet (ret_name r) v (ret_changes r) (ret_comment r).

Definition set_comment (c : string) (r : state_ret) : state_ret :=
  mkRet (ret_name r) (ret_result r) (ret_changes r) c.

(** [ret["changes"][k] = v]. *)
Definition set_change (k : string) (v : option string) (r : state_ret)
  : state_ret :=
  mkRet (ret_name r) (ret_result r) (dict_set (KStr k) v (ret_changes r))
    (ret_comment r).

(** The local variables of [config_manage] that the URI search assigns;
    [existing] is unbound until a read succeeds. *)
Record locals : Type := mkLocals {
  existing : option value;
  found_working_uri : bool;
  uri_used : string;
  request_uri : value;
  request_method : value
}.

(** [x in l] for a status. *)
Definition status_in (l : list Z) (x : Z) : bool := existsb (Z.eqb x) l.

Section RestconfState.

(** The state of the device behind the proxy minion. *)
Variable dev : Type.

(** [__salt__["restconf.get_data"]] and [__salt__["restconf.set_data"]]. *)
Variable get_data : value -> dev -> response * dev.
Variable set_data : value -> value -> value -> dev -> response * dev.

(** [__opts__["test"]]. *)
Variable opts_test : value.

(** The [deepdiff] package: a [DeepDiff] object maps report names to
    report entries; [pretty] and [str] render it. *)
Variable item : Type.
Variable DeepDiff : value -> value -> list (key * item).
Variable pretty : list (key * item) -> string.
Variable str_item : item -> string.

Definition report : Type := list (key * item).

Local Abbreviation M := (M dev report).

Definition log_critical (msg : string) : M unit :=
  emit (EvLogCritical msg).

Definition print (p : printed report) : M unit := emit (EvPrint p).

Definition salt_get_data (uri : value) : M response :=
  fun d => let (r, d') := get_data uri d in (inr r, d', [EvGetData uri]).

Definition salt_set_data (uri method payload : value) : M response :=
  fun d =>
    let (r, d') := set_data uri method payload d in
    (inr r, d', [EvSetData uri method payload]).

(** [raw["dict"]]. *)
Definition get_dict (raw : response) : M value :=
  match resp_dict raw with
  | Some v => pure v
  | None => raise (KeyError "dict")
  end.

(** *** class [_restDiff] *)

Record _restDiff : Type := mk_restDiff {
  current_dict : value;
  past_dict : value;
  diff : report;
  diff_pretty : string
}.

(** The object that [_restDiff.__init__] fills in. *)
Definition _restDiff_new (current_dict past_dict : value) : _restDiff :=
  let diff := DeepDiff current_dict past_dict in
  mk_restDiff current_dict past_dict diff (pretty diff).

(** [_restDiff.__init__], with the call of [DeepDiff] and its two prints. *)
Definition _restDiff_init (current_dict past_dict : value) : M _restDiff :=
  emit (EvDeepDiff current_dict past_dict) ;;
  let self := _restDiff_new current_dict past_dict in
  print (PText "DeepDiff:") ;;
  print (PReport (diff self)) ;;
  pure self.

Definition added (self : _restDiff) : option string :=
  if dict_mem (KStr "dictionary_item_added") (diff self) then
    option_map str_item (dict_get (KStr "dictionary_item_added") (diff self))
  else None.

Definition removed (self : _restDiff) : option string :=
  if dict_mem (KStr "dictionary_item_removed") (diff self) then
    option_map str_item (dict_get (KStr "dictionary_item_removed") (diff self))
  else None.

Definition changed (self : _restDiff) : option string :=
  if dict_mem (KStr "values_changed") (diff self) then
    option_map str_item (dict_get (KStr "values_changed") (diff self))
  else None.

Definition unchanged (self : _restDiff) : option string := None.

(** *** [config_manage] *)

Definition failure_comment (why : value) (s : Z) (u : string) : string :=
  "failed to add / modify config. API Statuscode: " ++ str_Z s
  ++ ", API Response: " ++ py_str why ++ ", URI:" ++ u.

Definition config_manage
    (name uri method config init_uri init_method : value) : M retval :=
  let uri := py_str uri in
  let name := py_str name in
  let method := py_str method in
  if String.eqb uri "" then
    log_critical "uri must not be blank" ;; pure RFalse
  else if String.eqb name "" then
    log_critical "Name is required" ;; pure RFalse
  else if String.eqb method "" then
    log_critical "method is required" ;; pure RFalse
  else if negb (type_is_dict config) then
    log_critical "config is required, config must be a dict" ;; pure RFalse
  else
    let ret := mkRet name (VBool false) [] "" in
    let l0 := mkLocals None false "" (VStr "") (VStr "") in
    existing_raw <- salt_get_data (VStr uri) ;;
    l1 <- (if status_in [200%Z] (status existing_raw) then
             existing <- get_dict existing_raw ;;
             pure (mkLocals (Some existing) true "Primary" (VStr uri)
                     (VStr method))
           else pure l0) ;;
    l2 <- (if negb (found_working_uri l1) then
             existing_raw_init <- salt_get_data init_uri ;;
             if status_in [200%Z] (status existing_raw_init) then
               existing <- get_dict existing_raw_init ;;
               pure (mkLocals (Some existing) true "init" init_uri
                       init_method)
             else pure l1
           else pure l1) ;;
    if negb (found_working_uri l2) then
      let ret := set_result (VBool false) ret in
      let ret :=
        set_comment
          "restconf could not find a working URI to get initial config" ret in
      pure (RRet ret)
    else
      let dict_config := json_roundtrip config in
      existing <- match existing l2 with
                  | Some v => pure v
                  | None => raise (UnboundLocalError "existing")
                  end ;;
      if py_eq existing dict_config then
        let ret := set_result (VBool true) ret in
        let ret := set_comment "Config is already set" ret in
        pure (RRet ret)
      else if is_True opts_test then
        let ret := set_result VNone ret in
        let ret := set_comment "Config will be added" ret in
        diff <- _restDiff_init existing dict_config ;;
        let ret := set_change "new" (added diff) ret in
        let ret := set_change "removed" (removed diff) ret in
        let ret := set_change "changed" (changed diff) ret in
        pure (RRet ret)
      else
        resp <- salt_set_data (request_uri l2) (request_method l2)
                  dict_config ;;
        if status_in [201%Z; 200%Z; 204%Z] (status resp) then
          let ret := set_result (VBool true) ret in
          let ret := set_comment "Successfully added config" ret in
          diff <- _restDiff_init existing dict_config ;;
          let ret := set_change "new" (added diff) ret in
          let ret := set_change "removed" (removed diff) ret in
          let ret := set_change "changed" (changed diff) ret in
          let ret :=
            if String.eqb method "PATCH"
            then set_change "removed" None ret
            else ret in
          pure (RRet ret)
        else
          let ret := set_result (VBool false) ret in
          let why :=
            match resp_dict resp, resp_body resp with
            | Some v, _ => v
            | None, Some v => v
            | None, None => VNone
            end in
          let ret :=
            set_comment (failure_comment why (status resp) (uri_used l2))
              ret in
          print (PPostContent dict_config) ;;
          pure (RRet ret).

(** The events of building a [_restDiff]. *)
Definition diff_events (a b : value) : list (event report) :=
  [EvDeepDiff a b; EvPrint (PText "DeepDiff:");
   EvPrint (PReport (DeepDiff a b))].

(** The three views as [config_manage] files them under [changes]. *)
Definition reported (self : _restDiff) : list (key * option string) :=
  [(KStr "new", added self);
   (KStr "removed", removed self);
   (KStr "changed", changed self)].

End RestconfState.

(** The value of [why] in the failure branch of [config_manage]. *)
Definition why_of (resp : response) : value :=
  match resp_dict resp, resp_body resp with
  | Some v, _ => v
  | None, Some v => v
  | None, None => VNone
  end.

(** *** [__virtual__] *)

(** What [__virtual__] returns: [True], or [False] with the reason. *)
Inductive virtual_ret : Type :=
| VirtualTrue
| VirtualFalse (reason : string).

(** [HAS_DEEPDIFF] records whether the import of [deepdiff] went through;
    [__salt__] is given by the names of the functions it holds. *)
Definition __virtual__ (HAS_DEEPDIFF : bool) (__salt__ : list string)
  : virtual_ret :=
  if negb HAS_DEEPDIFF then
    VirtualFalse
      "Missing dependency: The restconf states method requires the 'deepdiff' Python module."
  else if existsb (String.eqb "restconf.set_data") __salt__ then VirtualTrue
  else VirtualFalse "restconf module could not be loaded".

(** ** A reference model of [DeepDiff]

    The deepdiff package is a dependency of the module, not part of it, and
    [config_manage] above takes it as a parameter.  For concrete runs this
    is [DeepDiff(t1, t2)] as the deepdiff 5 series documents it at its
    default settings (verbose level 1, order not ignored) on the values
    above: a walk of both trees that files what it finds under the report
    names.  At this verbosity an added or removed dictionary key is
    reported by its path alone. *)

Module DeepDiffModel.

Inductive finding : Type :=
| FTypeChange (path : string) (t1 t2 : value)
| FAdded (path : string)
| FRemoved (path : string)
| FChanged (path : string) (t1 t2 : value)
| FIterAdded (path : string) (t2 : value)
| FIterRemoved (path : string) (t1 : value).

Definition type_name (v : value) : string :=
  match v with
  | VNone => "NoneType"
  | VBool _ => "bool"
  | VInt _ => "int"
  | VStr _ => "str"
  | VList _ => "list"
  | VDict _ => "dict"
  end.

Definition same_type (a b : value) : bool :=
  String.eqb (type_name a) (type_name b).

(** The path of a child: a string key is put between single quotes as it
    is (versions differ on keys that hold a quote themselves). *)
Definition child_key (p : string) (k : key) : string :=
  p ++ "[" ++ match k with
              | KStr s => "'" ++ s ++ "'"
              | _ => repr_key k
              end ++ "]".

Definition child_idx (p : string) (i : nat) : string :=
  p ++ "[" ++ str_Z (Z.of_nat i) ++ "]".

(** A private key: a string that starts with two underscores.  At its
    default [ignore_private_variables=True], [DeepDiff] leaves these keys
    out of both dictionaries before it compares them. *)
Definition private (k : key) : bool :=
  match k with
  | KStr (String a (String b _)) =>
      Ascii.eqb a "_"%char && Ascii.eqb b "_"%char
  | _ => false
  end.

Definition keys_not_in (p : string) (mk : string -> finding)
    (d other : dict) : list finding :=
  flat_map
    (fun kv : key * value =>
       if private (fst kv) || dict_mem (fst kv) other then []
       else [mk (child_key p (fst kv))])
    d.

Fixpoint iter_removed (p : string) (i : nat) (l1 : list value)
  : list finding :=
  match l1 with
  | [] => []
  | x :: l1' => FIterRemoved (child_idx p i) x :: iter_removed p (S i) l1'
  end.

Section Children.

Variable walk : string -> value -> value -> list finding.

(** Sequences are compared index by index. *)
Fixpoint walk_items (p : string) (i : nat) (l1 l2 : list value)
    {struct l2} : list finding :=
  match l2 with
  | [] => iter_removed p i l1
  | y :: l2' =>
      match l1 with
      | [] => FIterAdded (child_idx p i) y :: walk_items p (S i) [] l2'
      | x :: l1' =>
          (walk (child_idx p i) x y ++ walk_items p (S i) l1' l2')%list
      end
  end.

(** The keys in both dictionaries, private ones apart, in the order of
    [t2]. *)
Fixpoint walk_common (p : string) (d1 d : dict) {struct d}
  : list finding :=
  match d with
  | [] => []
  | (k, v2) :: d' =>
      ((if private k then []
        else match dict_get k d1 with
             | Some v1 => walk (child_key p k) v1 v2
             | None => []
             end) ++ walk_common p d1 d')%list
  end.

End Children.

(** [_diff]: a change of type ends the walk; in a dictionary the added
    keys come first, then the removed ones, then the keys in both. *)
Fixpoint walk (p : string) (t1 t2 : value) {struct t2} : list finding :=
  if negb (same_type t1 t2) then [FTypeChange p t1 t2]
  else
    match t2 with
    | VNone => []
    | VBool _ | VInt _ | VStr _ =>
        if py_eq t1 t2 then [] else [FChanged p t1 t2]
    | VList l2 =>
        match t1 with
        | VList l1 => walk_items walk p 0 l1 l2
        | _ => []
        end
    | VDict d2 =>
        match t1 with
        | VDict d1 =>
            (keys_not_in p FAdded d2 d1
             ++ keys_not_in p FRemoved d1 d2
             ++ walk_common walk p d1 d2)%list
        | _ => []
        end
    end.

(** What a report name maps to. *)
Inductive item : Type :=
| Paths (ps : list string)
| Changes (cs : list (string * (value * value)))
| TypeChanges (cs : list (string * (value * value)))
| Items (vs : list (string * value)).

Definition entry (name : string) (n : nat) (i : item) : list (key * item) :=
  match n with 0 => [] | _ => [(KStr name, i)] end.

Definition type_changes (fs : list finding) :=
  flat_map (fun f => match f with
                     | FTypeChange p a b => [(p, (a, b))] | _ => [] end) fs.
Definition items_added (fs : list finding) :=
  flat_map (fun f => match f with FAdded p => [p] | _ => [] end) fs.
Definition items_removed (fs : list finding) :=
  flat_map (fun f => match f with FRemoved p => [p] | _ => [] end) fs.
Definition values_changed (fs : list finding) :=
  flat_map (fun f => match f with
                     | FChanged p a b => [(p, (a, b))] | _ => [] end) fs.
Definition iter_added (fs : list finding) :=
  flat_map (fun f => match f with FIterAdded p v => [(p, v)] | _ => [] end) fs.
Definition iter_removed_of (fs : list finding) :=
  flat_map (fun f => match f with
                     | FIterRemoved p v => [(p, v)] | _ => [] end) fs.

(** The text view: the report names that have entries, in the order the
    result object lists them. *)
Definition report_of (fs : list finding) : list (key * item) :=
  (entry "type_changes" (List.length (type_changes fs))
     (TypeChanges (type_changes fs))
   ++ entry "dictionary_item_added" (List.length (items_added fs))
        (Paths (items_added fs))
   ++ entry "dictionary_item_removed" (List.length (items_removed fs))
        (Paths (items_removed fs))
   ++ entry "values_changed" (List.length (values_changed fs))
        (Changes (values_changed fs))
   ++ entry "iterable_item_added" (List.length (iter_added fs))
        (Items (iter_added fs))
   ++ entry "iterable_item_removed" (List.length (iter_removed_of fs))
        (Items (iter_removed_of fs)))%list.

Definition DeepDiff (t1 t2 : value) : list (key * item) :=
  report_of (walk "root" t1 t2).

(** [str] of a report entry as deepdiff 5 prints it: a set of paths prints
    as a bracketed list of bare paths (later versions print the same paths
    under the name of their set type), the other entries are dictionaries
    keyed by path.  For a changed string with a line break the library adds
    a unified diff to the entry, which is not modelled: the text is the
    library's for values without line breaks.  It serves the concrete runs;
    the general statements about [_restDiff] hold for every rendering. *)
Definition str_item (i : item) : string :=
  match i with
  | Paths ps => "[" ++ join ", " ps ++ "]"
  | Changes cs =>
      py_repr
        (VDict
           (map (fun c : string * (value * value) =>
                   (KStr (fst c),
                    VDict [(KStr "new_value", snd (snd c));
                           (KStr "old_value", fst (snd c))])) cs))
  | TypeChanges cs =>
      "{" ++ join ", "
               (map (fun c : string * (value * value) =>
                       repr_str (fst c)
                       ++ ": {'old_type': <class '"
                       ++ type_name (fst (snd c))
                       ++ "'>, 'new_type': <class '"
                       ++ type_name (snd (snd c))
                       ++ "'>, 'old_value': " ++ py_repr (fst (snd c))
                       ++ ", 'new_value': " ++ py_repr (snd (snd c))
                       ++ "}") cs)
          ++ "}"
  | Items vs =>
      py_repr (VDict (map (fun c : string * value => (KStr (fst c), snd c)) vs))
  end.

(** [pretty()]: one sentence for each finding, the report names in
    alphabetical order. *)
Definition pretty_value (v : value) : string :=
  match v with
  | VStr s => String dquote (s ++ String dquote "")
  | _ => py_str v
  end.

Definition newline : string := String (Ascii.ascii_of_nat 10) "".

Definition pretty (r : list (key * item)) : string :=
  let lines (name : string) : list string :=
    match dict_get (KStr name) r with
    | Some (Paths ps) =>
        map (fun p =>
               "Item " ++ p
               ++ (if String.eqb name "dictionary_item_added"
                   then " added to dictionary."
                   else " removed from dictionary.")) ps
    | Some (Changes cs) =>
        map (fun c : string * (value * value) =>
               "Value of " ++ fst c ++ " changed from "
               ++ pretty_value (fst (snd c)) ++ " to "
               ++ pretty_value (snd (snd c)) ++ ".") cs
    | Some (TypeChanges cs) =>
        map (fun c : string * (value * value) =>
               "Type of " ++ fst c ++ " changed from "
               ++ type_name (fst (snd c)) ++ " to "
               ++ type_name (snd (snd c)) ++ " and value changed from "
               ++ pretty_value (fst (snd c)) ++ " to "
               ++ pretty_value (snd (snd c)) ++ ".") cs
    | Some (Items vs) =>
        map (fun c : string * value =>
               "Item " ++ fst c
               ++ (if String.eqb name "iterable_item_added"
                   then " added to iterable."
                   else " removed from iterable.")) vs
    | None => []
    end in
  join newline
    (lines "dictionary_item_added" ++ lines "dictionary_item_removed"
     ++ lines "iterable_item_added" ++ lines "iterable_item_removed"
     ++ lines "type_changes" ++ lines "values_changed")%list.

End DeepDiffModel.

(** ** A scripted device

    A stand-in for the proxy in concrete runs: reads answer from a table of
    replies (404 for a URI that is not in it), every write gets the one
    scripted reply. *)

Module Scripted.

Record device : Type := mkDevice {
  replies : list (value * response);
  write_reply : response
}.

Fixpoint find_reply (uri : value) (l : list (value * response))
  : option response :=
  match l with
  | [] => None
  | (u, r) :: l' => if py_eq uri u then Some r else find_reply uri l'
  end.

Definition get_data (uri : value) (d : device) : response * device :=
  (match find_reply uri (replies d) with
   | Some r => r
   | None => mkResponse 404 None None
   end, d).

Definition set_data (uri method payload : value) (d : device)
  : response * device :=
  (write_reply d, d).

(** [config_manage] on a scripted device with the reference [DeepDiff]. *)
Definition run (test : value)
    (name uri method config init_uri init_method : value) (d : device) :=
  config_manage device get_data set_data test DeepDiffModel.item
    DeepDiffModel.DeepDiff DeepDiffModel.pretty DeepDiffModel.str_item
    name uri method config init_uri init_method d.

Definition ok (body : value) : response := mkResponse 200 (Some body) None.

End Scripted.

(** ** Requests and URI resolution, as [config_manage] decides them *)

(** The request gets past the four guards at the head of [config_manage]. *)
Definition valid_request (name uri method config : value) : bool :=
  negb (String.eqb (py_str uri) "")
  && negb (String.eqb (py_str name) "")
  && negb (String.eqb (py_str method) "")
  && type_is_dict config.

(** An entry of a decoded document: a string key and a decoded value. *)
Definition json_entry (kv : key * value) : bool :=
  match fst kv with
  | KStr _ => json_shaped (snd kv)
  | _ => false
  end.

(** The values that are neither containers nor [None]. *)
Definition scalar (v : value) : bool :=
  match v with
  | VBool _ | VInt _ | VStr _ => true
  | _ => false
  end.

(** A key whose path reads the same in every version of [deepdiff]: not a
    string that holds a quote.  (Later versions change the quotes around
    such a key.) *)
Definition quote_free (k : key) : bool :=
  match k with
  | KStr s => negb (has_char squote s) && negb (has_char dquote s)
  | _ => true
  end.

(** A value that is not a string with a line break; for a changed string
    with one, [DeepDiff] adds a unified diff to its entry. *)
Definition single_line (v : value) : bool :=
  match v with
  | VStr s => negb (has_char (Ascii.ascii_of_nat 10) s)
  | _ => true
  end.

(** A finding that an item was added to a sequence. *)
Definition is_iter_added (f : DeepDiffModel.finding) : bool :=
  match f with
  | DeepDiffModel.FIterAdded _ _ => true
  | _ => false
  end.

(** [v.keys()] of a dictionary. *)
Definition keys_of (v : value) : list key :=
  match v with
  | VDict d => map fst d
  | _ => []
  end.

Fixpoint starts_with (sub s : string) : bool :=
  match sub, s with
  | EmptyString, _ => true
  | String a sub', String b s' => Ascii.eqb a b && starts_with sub' s'
  | String _ _, EmptyString => false
  end.

(** [occurs sub s]: [sub] is a substring of [s], Python's [sub in s]. *)
Fixpoint occurs (sub s : string) : bool :=
  starts_with sub s
  || match s with
     | EmptyString => false
     | String _ s' => occurs sub s'
     end.

Section Resolution.

Variable dev : Type.
Variable get_data : value -> dev -> response * dev.

(** The search for a working URI from device state [d]: the locals it
    leaves behind, the state of the device after its reads, and the URIs
    it read. *)
Inductive resolved (uri method init_uri init_method : value) (d : dev)
  : locals -> dev -> list value -> Prop :=
| resolved_primary (r : response) (d1 : dev) (e : value) :
    get_data (VStr (py_str uri)) d = (r, d1) ->
    status r = 200%Z ->
    resp_dict r = Some e ->
    resolved uri method init_uri init_method d
      (mkLocals (Some e) true "Primary" (VStr (py_str uri))
         (VStr (py_str method))) d1 [VStr (py_str uri)]
| resolved_init (r1 r2 : response) (d1 d2 : dev) (e : value) :
    get_data (VStr (py_str uri)) d = (r1, d1) ->
    status r1 <> 200%Z ->
    get_data init_uri d1 = (r2, d2) ->
    status r2 = 200%Z ->
    resp_dict r2 = Some e ->
    resolved uri method init_uri init_method d
      (mkLocals (Some e) true "init" init_uri init_method) d2
      [VStr (py_str uri); init_uri].

End Resolution.

(** ** Concrete requests and devices *)

Module Cases.

Import Scripted.

(** [{"x": 1}] *)
Definition config_x : value := VDict [(KStr "x", VInt 1)].

(** [{"x": 2, "y": "q"}] *)
Definition config_xy : value := VDict [(KStr "x", VInt 2); (KStr "y", VStr "q")].

Definition no_reply : response := mkResponse 404 None None.

(** [/a] holds the desired configuration. *)
Definition dev_matching : device :=
  mkDevice [(VStr "/a", ok config_x)] (mkResponse 204 None None).

(** Only [/b] exists, and is empty; writes answer 201. *)
Definition dev_fallback : device :=
  mkDevice [(VStr "/b", ok (VDict []))] (mkResponse 201 None None).

(** Nothing exists. *)
Definition dev_empty : device := mkDevice [] (mkResponse 201 None None).

(** [/a] holds another configuration; writes answer 204. *)
Definition dev_stale : device :=
  mkDevice [(VStr "/a", ok config_xy)] (mkResponse 204 None None).

(** [/a] holds another configuration; writes are refused. *)
Definition dev_refusing : device :=
  mkDevice [(VStr "/a", ok config_xy)]
    (mkResponse 500 (Some (VDict [(KStr "error", VStr "bad")])) None).

(** [/a] holds a document with the key ["1"]. *)
Definition dev_numbered : device :=
  mkDevice [(VStr "/a", ok (VDict [(KStr "1", VStr "a")]))]
    (mkResponse 204 None None).

(** [config_manage(name, uri, method, config)] with the defaults
    [init_uri=None] and [init_method="PATCH"]. *)
Definition manage (test : bool) (method : string) (config : value)
    (d : device) :=
  run (VBool test) (VStr "iface1") (VStr "/a") (VStr method) config VNone
    (VStr "PATCH") d.

(** The object [_restDiff(current, desired)] with the reference
    [DeepDiff]. *)
Definition rest_diff (current desired : value) :=
  _restDiff_new DeepDiffModel.item DeepDiffModel.DeepDiff
    DeepDiffModel.pretty current desired.

Definition view_added := added DeepDiffModel.item DeepDiffModel.str_item.
Definition view_removed := removed DeepDiffModel.item DeepDiffModel.str_item.
Definition view_changed := changed DeepDiffModel.item DeepDiffModel.str_item.

End Cases.

(** More devices for concrete runs. *)

Module MoreCases.

Import Scripted Cases.

(** [/a] answers 200 with a body that was not decoded. *)
Definition dev_undecoded : device :=
  mkDevice [(VStr "/a", mkResponse 200 None (Some (VStr "<html/>")))]
    (mkResponse 204 None None).

(** Only [/b] exists and holds another configuration; writes answer 204. *)
Definition dev_fallback_stale : device :=
  mkDevice [(VStr "/b", ok config_xy)] (mkResponse 204 None None).

(** [{1: "a"}], a configuration with a key that is not a string. *)
Definition config_numbered : value := VDict [(KInt 1, VStr "a")].

(** [{1: "a", None: [{True: 2}], "1": "b"}] and the document it is written
    as and read back: [{"1": "b", "null": [{"true": 2}]}]. *)
Definition config_mixed : value :=
  VDict [(KInt 1, VStr "a");
         (KNone, VList [VDict [(KBool true, VInt 2)]]);
         (KStr "1", VStr "b")].

Definition config_mixed_decoded : value :=
  VDict [(KStr "1", VStr "b");
         (KStr "null", VList [VDict [(KStr "true", VInt 2)]])].

End MoreCases.

(** ** The specification's reading of two claims *)

Module Spec.

Import Scripted Cases.

(** The requests that the specification has fail validation: an empty
    name, URI or method, a configuration that is not a mapping, or an
    empty mapping. *)
Definition invalid_request (name uri method config : value) : bool :=
  String.eqb (py_str name) ""
  || String.eqb (py_str uri) ""
  || String.eqb (py_str method) ""
  || negb (type_is_dict config)
  || match config with VDict [] => true | _ => false end.

(** What the specification promises of such a request: no device I/O, no
    diff, and a result that reports failure with a message. *)
Definition validation_claim (test name uri method config init_uri
    init_method : value) (d : device) : Prop :=
  invalid_request name uri method config = true ->
  let r := run test name uri method config init_uri init_method d in
  device_io (events r) = []
  /\ diffs (events r) = []
  /\ exists res,
       returned r = Some (RRet res)
       /\ ret_result res = VBool false
       /\ ret_comment res <> "".


End Spec.

(** * Properties *)

Lemma status_in_200 (z : Z) : status_in [200%Z] z = true <-> z = 200%Z.
Proof.
  unfold status_in; simpl. rewrite orb_false_r. apply Z.eqb_eq.
Qed.

Lemma status_in_200_false (z : Z) : z <> 200%Z -> status_in [200%Z] z = false.
Proof.
  intros H. destruct (status_in [200%Z] z) eqn:E; [|reflexivity].
  apply status_in_200 in E. contradiction.
Qed.

Lemma valid_request_inv (name uri method config : value) :
  valid_request name uri method config = true ->
  String.eqb (py_str uri) "" = false
  /\ String.eqb (py_str name) "" = false
  /\ String.eqb (py_str method) "" = false
  /\ type_is_dict config = true.
Proof.
  unfold valid_request. intros H.
  repeat (apply andb_prop in H; destruct H as [H ?]).
  repeat split; try assumption; apply negb_true_iff; assumption.
Qed.

Lemma starts_with_app (s t : string) : starts_with s (s ++ t) = true.
Proof.
  induction s as [|a s IH]; simpl; [reflexivity|].
  rewrite Ascii.eqb_refl. assumption.
Qed.

Lemma occurs_here (sub t : string) : occurs sub (sub ++ t) = true.
Proof.
  destruct (sub ++ t) eqn:E; simpl; rewrite <- E, starts_with_app; reflexivity.
Qed.

Lemma occurs_self (s : string) : occurs s s = true.
Proof.
  assert (E : s ++ "" = s).
  { induction s as [|c s IH]; simpl; [reflexivity | f_equal; exact IH]. }
  rewrite <- E at 2. apply occurs_here.
Qed.

Lemma occurs_later (sub a t : string) :
  occurs sub t = true -> occurs sub (a ++ t) = true.
Proof.
  intros H. induction a as [|c a IH]; [exact H|].
  cbn [append occurs]. rewrite IH. apply orb_true_r.
Qed.

(** ** Dictionaries *)

Lemma key_eqb_refl (k : key) : key_eqb k k = true.
Proof.
  destruct k as [|b|z|s]; simpl.
  - reflexivity.
  - apply Z.eqb_refl.
  - apply Z.eqb_refl.
  - apply String.eqb_refl.
Qed.

Lemma key_eqb_sym (a b : key) : key_eqb a b = key_eqb b a.
Proof.
  destruct a, b; simpl; try reflexivity;
    try apply Z.eqb_sym; apply String.eqb_sym.
Qed.

Lemma dict_mem_cons {A : Type} (k k0 : key) (x : A) (d : list (key * A)) :
  dict_mem k ((k0, x) :: d) = key_eqb k k0 || dict_mem k d.
Proof.
  unfold dict_mem; simpl. destruct (key_eqb k k0); reflexivity.
Qed.

Lemma dict_mem_app {A : Type} (k : key) (d1 d2 : list (key * A)) :
  dict_mem k (d1 ++ d2)%list = dict_mem k d1 || dict_mem k d2.
Proof.
  induction d1 as [|[k0 x] d1 IH]; [reflexivity|].
  change (((k0, x) :: d1) ++ d2)%list with ((k0, x) :: (d1 ++ d2))%list.
  rewrite !dict_mem_cons, IH. apply orb_assoc.
Qed.

Lemma dict_mem_in {A : Type} (k k' : key) (x : A) (d : list (key * A)) :
  In (k', x) d -> key_eqb k k' = true -> dict_mem k d = true.
Proof.
  induction d as [|[k0 x0] d IH]; [contradiction|].
  intros [H|H] E; rewrite dict_mem_cons.
  - injection H as -> ->. rewrite E. reflexivity.
  - rewrite (IH H E). apply orb_true_r.
Qed.


(** In a dictionary with unique keys, looking up the key of an entry finds
    that entry. *)
Lemma dict_get_in {A : Type} (k : key) (x : A) (d : list (key * A)) :
  unique_keys d = true -> In (k, x) d -> dict_get k d = Some x.
Proof.
  induction d as [|[k0 x0] d IH]; [contradiction|].
  cbn [unique_keys dict_get]. intros U [H|H].
  - injection H as -> ->. rewrite key_eqb_refl. reflexivity.
  - apply andb_prop in U. destruct U as [U1 U2].
    destruct (key_eqb k k0) eqn:E.
    + rewrite key_eqb_sym in E. rewrite (dict_mem_in _ _ _ _ H E) in U1.
      discriminate.
    + apply IH; assumption.
Qed.

Lemma dict_set_fresh {A : Type} (k : key) (x : A) (d : list (key * A)) :
  dict_mem k d = false -> dict_set k x d = (d ++ [(k, x)])%list.
Proof.
  induction d as [|[k0 x0] d IH]; [reflexivity|].
  rewrite dict_mem_cons. intros H. apply orb_false_elim in H.
  destruct H as [H1 H2]. cbn [dict_set app]. rewrite H1, (IH H2). reflexivity.
Qed.

Lemma unique_keys_before {A : Type} (k : key) (x : A) (acc d : list (key * A)) :
  unique_keys (acc ++ (k, x) :: d)%list = true -> dict_mem k acc = false.
Proof.
  induction acc as [|[k0 x0] acc IH]; [reflexivity|].
  cbn [app unique_keys]. intros U. apply andb_prop in U. destruct U as [U1 U2].
  rewrite dict_mem_cons, (IH U2), orb_false_r.
  apply negb_true_iff in U1. rewrite dict_mem_app, dict_mem_cons in U1.
  apply orb_false_elim in U1. destruct U1 as [_ U1].
  apply orb_false_elim in U1. destruct U1 as [U1 _].
  rewrite key_eqb_sym. exact U1.
Qed.


Lemma load_pairs_fresh (f : value -> value) (d acc : dict) :
  unique_keys (acc ++ d)%list = true ->
  Forall (fun kv : key * value =>
            (exists s, fst kv = KStr s) /\ f (snd kv) = snd kv) d ->
  load_pairs f d acc = (acc ++ d)%list.
Proof.
  revert acc. induction d as [|[k x] d IH]; intros acc U F.
  - symmetry. apply app_nil_r.
  - inversion F as [|kv d' [[s Hs] Hx] F']; subst. cbn [fst snd] in Hs, Hx.
    subst k. cbn [load_pairs json_key]. rewrite Hx.
    rewrite (dict_set_fresh _ _ _ (unique_keys_before _ _ _ _ U)).
    rewrite IH; [| rewrite <- app_assoc; exact U | exact F'].
    rewrite <- app_assoc. reflexivity.
Qed.

(** On a value with string keys only, such as a decoded JSON document, the
    round trip changes nothing. *)
Lemma json_roundtrip_stable (v : value) :
  json_shaped v = true -> json_roundtrip v = v.
Proof.
  induction v as [| b | z | s | l IH | d IH] using value_ind;
    intros J; try reflexivity.
  - cbn [json_roundtrip json_shaped] in *. f_equal.
    rewrite forallb_forall in J. rewrite Forall_forall in IH.
    rewrite <- (map_id l) at 2. apply map_ext_in.
    intros x Hx. apply IH; [assumption | apply J; assumption].
  - cbn [json_roundtrip json_shaped] in *. f_equal.
    apply andb_prop in J. destruct J as [U J].
    rewrite forallb_forall in J. rewrite Forall_forall in IH.
    rewrite load_pairs_fresh; [reflexivity | exact U |].
    apply Forall_forall. intros [k x] Hin.
    pose proof (J _ Hin) as Jk. cbn [fst snd] in Jk |- *.
    destruct k; try discriminate.
    split; [eexists; reflexivity | apply (IH _ Hin); exact Jk].
Qed.

Lemma dict_set_keys {A : Type} (k : key) (v : A) (d : list (key * A)) (k' : key) :
  In k' (map fst (dict_set k v d)) -> In k' (map fst d) \/ k' = k.
Proof.
  induction d as [|[k0 v0] d IH]; simpl.
  - intros [H|[]]; right; congruence.
  - destruct (key_eqb k k0); simpl.
    + intros [H|H]; left; [left | right]; assumption.
    + intros [H|H]; [left; left; assumption|].
      destruct (IH H) as [H'|H']; [left; right; assumption | right; assumption].
Qed.

Lemma load_pairs_keys (f : value -> value) (d acc : dict) (k : key) :
  In k (map fst (load_pairs f d acc)) ->
  In k (map fst acc)
  \/ exists k0, In k0 (map fst d) /\ k = KStr (json_key k0).
Proof.
  revert acc. induction d as [|[k0 x0] d IH]; simpl; intros acc H.
  - left; assumption.
  - destruct (IH _ H) as [H'|(k1 & H1 & ->)].
    + destruct (dict_set_keys _ _ _ _ H') as [H''| ->].
      * left; assumption.
      * right. exists k0. split; [left; reflexivity | reflexivity].
    + right. exists k1. split; [right; assumption | reflexivity].
Qed.

(** The round trip leaves only string keys, each the JSON spelling of a key
    of the dictionary it started from. *)
Lemma json_roundtrip_keys (v : value) (k : key) :
  In k (keys_of (json_roundtrip v)) ->
  exists k0, In k0 (keys_of v) /\ k = KStr (json_key k0).
Proof.
  destruct v; simpl; try contradiction.
  intros H. destruct (load_pairs_keys _ _ _ _ H) as [[]|H']. exact H'.
Qed.

Lemma dict_mem_dict_set {A : Type} (k k' : key) (v : A) (d : list (key * A)) :
  dict_mem k' (dict_set k v d) = true ->
  dict_mem k' d = true \/ key_eqb k' k = true.
Proof.
  induction d as [|[k0 v0] d IH]; cbn [dict_set].
  - rewrite dict_mem_cons. intros H. apply orb_prop in H.
    destruct H as [H|H]; [right; exact H | discriminate H].
  - destruct (key_eqb k k0); rewrite !dict_mem_cons; intros H;
      apply orb_prop in H; destruct H as [H|H].
    + left. rewrite H. reflexivity.
    + left. rewrite H. apply orb_true_r.
    + left. rewrite H. reflexivity.
    + destruct (IH H) as [H'|H']; [left | right; exact H'].
      rewrite H'. apply orb_true_r.
Qed.

Lemma dict_set_unique {A : Type} (k : key) (v : A) (d : list (key * A)) :
  unique_keys d = true -> unique_keys (dict_set k v d) = true.
Proof.
  induction d as [|[k0 v0] d IH]; [reflexivity|].
  cbn [unique_keys dict_set]. intros U. apply andb_prop in U.
  destruct U as [U1 U2]. destruct (key_eqb k k0) eqn:E; cbn [unique_keys].
  - rewrite U1, U2. reflexivity.
  - rewrite (IH U2), andb_true_r. apply negb_true_iff.
    destruct (dict_mem k0 (dict_set k v d)) eqn:M; [|reflexivity].
    destruct (dict_mem_dict_set _ _ _ _ M) as [H|H].
    + apply negb_true_iff in U1. congruence.
    + rewrite key_eqb_sym in H. congruence.
Qed.

Lemma dict_set_json_entries (s : string) (x : value) (d : dict) :
  json_shaped x = true ->
  forallb json_entry d = true ->
  forallb json_entry (dict_set (KStr s) x d) = true.
Proof.
  intros Hx. induction d as [|[k0 v0] d IH]; cbn [dict_set forallb].
  - intros _. unfold json_entry. cbn [fst snd]. rewrite Hx. reflexivity.
  - intros H. apply andb_prop in H. destruct H as [H1 H2].
    destruct (key_eqb (KStr s) k0) eqn:E; cbn [forallb].
    + rewrite H2, andb_true_r. unfold json_entry in *. cbn [fst snd] in *.
      destruct k0; try discriminate. exact Hx.
    + rewrite H1, (IH H2). reflexivity.
Qed.

Lemma load_pairs_json_shaped (f : value -> value) (d acc : dict) :
  Forall (fun kv : key * value => json_shaped (f (snd kv)) = true) d ->
  unique_keys acc = true ->
  forallb json_entry acc = true ->
  unique_keys (load_pairs f d acc) = true
  /\ forallb json_entry (load_pairs f d acc) = true.
Proof.
  revert acc. induction d as [|[k x] d IH]; intros acc F U E.
  - split; assumption.
  - inversion F as [|kv d' Hx F']; subst. cbn [snd] in Hx.
    cbn [load_pairs]. apply IH.
    + exact F'.
    + apply dict_set_unique. exact U.
    + apply dict_set_json_entries; assumption.
Qed.

(** The round trip of any value has string keys only, each once. *)
Lemma json_roundtrip_shaped (v : value) : json_shaped (json_roundtrip v) = true.
Proof.
  induction v as [| b | z | s | l IH | d IH] using value_ind;
    try reflexivity.
  - cbn [json_roundtrip json_shaped]. apply forallb_forall.
    intros y Hy. apply in_map_iff in Hy. destruct Hy as (x & <- & Hx).
    rewrite Forall_forall in IH. apply IH. exact Hx.
  - cbn [json_roundtrip json_shaped].
    destruct (load_pairs_json_shaped json_roundtrip d [] IH eq_refl eq_refl)
      as [U E].
    rewrite U. exact E.
Qed.

Lemma json_shaped_wf (v : value) : json_shaped v = true -> wf v = true.
Proof.
  induction v as [| b | z | s | l IH | d IH] using value_ind;
    intros J; try reflexivity.
  - cbn [json_shaped wf] in *. rewrite forallb_forall in J |- *.
    rewrite Forall_forall in IH. intros x Hx. apply IH; auto.
  - cbn [json_shaped wf] in *. apply andb_prop in J. destruct J as [U J].
    rewrite U. cbn [andb]. rewrite forallb_forall in J |- *.
    rewrite Forall_forall in IH. intros kv Hkv. apply (IH kv Hkv).
    pose proof (J kv Hkv) as Jk. destruct (fst kv); try discriminate.
    exact Jk.
Qed.

Lemma key_eqb_str (s : string) (k : key) :
  key_eqb (KStr s) k = true -> k = KStr s.
Proof.
  destruct k; cbn; try discriminate.
  intros H. apply String.eqb_eq in H. subst. reflexivity.
Qed.

Lemma dict_get_set_same {A : Type} (k : key) (v : A) (d : list (key * A)) :
  dict_get k (dict_set k v d) = Some v.
Proof.
  induction d as [|[k0 v0] d IH]; cbn [dict_set dict_get].
  - rewrite key_eqb_refl. reflexivity.
  - destruct (key_eqb k k0) eqn:E; cbn [dict_get]; rewrite E;
      [reflexivity | exact IH].
Qed.

Lemma dict_get_set_other {A : Type} (s s' : string) (v : A)
    (d : list (key * A)) :
  s <> s' ->
  dict_get (KStr s) (dict_set (KStr s') v d) = dict_get (KStr s) d.
Proof.
  intros Hne. apply String.eqb_neq in Hne.
  induction d as [|[k0 v0] d IH]; cbn [dict_set dict_get].
  - cbn [key_eqb]. rewrite Hne. reflexivity.
  - destruct (key_eqb (KStr s') k0) eqn:E; cbn [dict_get].
    + apply key_eqb_str in E. subst k0. cbn [key_eqb]. rewrite Hne.
      reflexivity.
    + rewrite IH. reflexivity.
Qed.

Lemma dict_set_keeps_keys {A : Type} (k k' : key) (v : A)
    (d : list (key * A)) :
  In k (map fst d) -> In k (map fst (dict_set k' v d)).
Proof.
  induction d as [|[k0 v0] d IH]; [contradiction|].
  cbn [dict_set]. destruct (key_eqb k' k0); cbn [map fst In]; intros [H|H].
  - left; exact H.
  - right; exact H.
  - left; exact H.
  - right; apply IH; exact H.
Qed.

Lemma dict_set_has_key {A : Type} (s : string) (v : A) (d : list (key * A)) :
  In (KStr s) (map fst (dict_set (KStr s) v d)).
Proof.
  induction d as [|[k0 v0] d IH]; cbn [dict_set].
  - left; reflexivity.
  - destruct (key_eqb (KStr s) k0) eqn:E; cbn [map fst In].
    + left. apply key_eqb_str in E. exact E.
    + right. exact IH.
Qed.

Lemma load_pairs_keeps_keys (f : value -> value) (d acc : dict) (k : key) :
  In k (map fst acc) -> In k (map fst (load_pairs f d acc)).
Proof.
  revert acc. induction d as [|[k0 x0] d IH]; intros acc H; [exact H|].
  cbn [load_pairs]. apply IH, dict_set_keeps_keys, H.
Qed.

Lemma load_pairs_has_key (f : value -> value) (d acc : dict) (k0 : key) :
  In k0 (map fst d) ->
  In (KStr (json_key k0)) (map fst (load_pairs f d acc)).
Proof.
  revert acc. induction d as [|[k1 x1] d IH]; intros acc H; [contradiction|].
  cbn [load_pairs]. destruct H as [H|H].
  - cbn [fst] in H. subst k1. apply load_pairs_keeps_keys, dict_set_has_key.
  - apply IH, H.
Qed.

Lemma load_pairs_app (f : value -> value) (a b acc : dict) :
  load_pairs f (a ++ b)%list acc = load_pairs f b (load_pairs f a acc).
Proof.
  revert acc. induction a as [|[k x] a IH]; intros acc; [reflexivity|].
  cbn [app load_pairs]. apply IH.
Qed.

Lemma load_pairs_get_other (f : value -> value) (d acc : dict) (s : string) :
  (forall k1, In k1 (map fst d) -> json_key k1 <> s) ->
  dict_get (KStr s) (load_pairs f d acc) = dict_get (KStr s) acc.
Proof.
  revert acc. induction d as [|[k1 x1] d IH]; intros acc H; [reflexivity|].
  cbn [load_pairs]. rewrite IH.
  - apply dict_get_set_other. intros E. apply (H k1); [left; reflexivity|].
    symmetry. exact E.
  - intros k2 H2. apply H. right. exact H2.
Qed.

(** Under the spelling of a key the round trip holds what the last entry
    so spelled held. *)
Lemma load_pairs_get_last (f : value -> value) (before after acc : dict)
    (k0 : key) (x0 : value) :
  (forall k1, In k1 (map fst after) -> json_key k1 <> json_key k0) ->
  dict_get (KStr (json_key k0))
    (load_pairs f (before ++ (k0, x0) :: after)%list acc)
  = Some (f x0).
Proof.
  intros H. rewrite load_pairs_app. cbn [load_pairs].
  rewrite (load_pairs_get_other f after _ _ H).
  apply dict_get_set_same.
Qed.

(** The round trip is what the [json] module documents. *)
Lemma json_roundtrip_decoded (v : value) : json_decoded v (json_roundtrip v).
Proof.
  induction v as [| b | z | s | l IH | d IH] using value_ind;
    try (constructor; fail).
  - cbn [json_roundtrip]. constructor.
    induction IH as [|x l Hx Hl IHl]; constructor; assumption.
  - cbn [json_roundtrip]. constructor.
    + apply (load_pairs_json_shaped json_roundtrip d []);
        [|reflexivity|reflexivity].
      apply Forall_forall. intros kv _. apply json_roundtrip_shaped.
    + intros k. split.
      * intros H. destruct (load_pairs_keys _ _ _ _ H) as [[]|H']. exact H'.
      * intros (k0 & H0 & ->). apply load_pairs_has_key. exact H0.
    + intros before k0 x0 after -> Hlast.
      exists (json_roundtrip x0). split.
      * apply load_pairs_get_last. exact Hlast.
      * rewrite Forall_forall in IH.
        apply (IH (k0, x0)). apply in_or_app. right. left. reflexivity.
Qed.

(** ** Runs of [config_manage] *)

(** One step of a run, leaving the tests of the source folded. *)
Ltac step :=
  cbn -[status_in py_eq json_roundtrip is_True py_str str_Z String.eqb
        failure_comment].

Section Runs.

Variable dev : Type.
Variable get_data : value -> dev -> response * dev.
Variable set_data : value -> value -> value -> dev -> response * dev.
Variable opts_test : value.
Variable item : Type.
Variable DeepDiff : value -> value -> list (key * item).
Variable pretty : list (key * item) -> string.
Variable str_item : item -> string.

Local Abbreviation run :=
  (config_manage dev get_data set_data opts_test item DeepDiff pretty
     str_item).
Local Abbreviation new_diff := (_restDiff_new item DeepDiff pretty).
Local Abbreviation resolves := (resolved dev get_data).
Local Abbreviation diff_events := (diff_events item DeepDiff).
Local Abbreviation reported := (reported item str_item).

Lemma run_invalid name uri method config init_uri init_method d :
  valid_request name uri method config = false ->
  exists msg,
    msg <> "" /\
    run name uri method config init_uri init_method d
    = (inr RFalse, d, [EvLogCritical msg]).
Proof.
  unfold valid_request, config_manage. intros H.
  destruct (String.eqb (py_str uri) "").
  { eexists; split; [|reflexivity]; discriminate. }
  destruct (String.eqb (py_str name) "").
  { eexists; split; [|reflexivity]; discriminate. }
  destruct (String.eqb (py_str method) "").
  { eexists; split; [|reflexivity]; discriminate. }
  simpl in H. rewrite H.
  eexists; split; [|reflexivity]; discriminate.
Qed.

Lemma run_unresolved name uri method config init_uri init_method d
    r1 d1 r2 d2 :
  valid_request name uri method config = true ->
  get_data (VStr (py_str uri)) d = (r1, d1) ->
  status r1 <> 200%Z ->
  get_data init_uri d1 = (r2, d2) ->
  status r2 <> 200%Z ->
  run name uri method config init_uri init_method d
  = (inr (RRet (mkRet (py_str name) (VBool false) []
                  "restconf could not find a working URI to get initial config")),
     d2, [EvGetData (VStr (py_str uri)); EvGetData init_uri]).
Proof.
  intros Hv G1 S1 G2 S2.
  destruct (valid_request_inv _ _ _ _ Hv) as (Hu & Hn & Hm & Hc).
  unfold config_manage. rewrite Hu, Hn, Hm, Hc. cbn [negb].
  unfold bind, salt_get_data. rewrite G1.
  rewrite (status_in_200_false _ S1). step.
  rewrite G2. rewrite (status_in_200_false _ S2). reflexivity.
Qed.

(** After a successful search the run is the comparison and what follows
    it, started from the device state the reads left. *)
Lemma run_resolved name uri method config init_uri init_method d l d1 us e :
  valid_request name uri method config = true ->
  resolves uri method init_uri init_method d l d1 us ->
  existing l = Some e ->
  run name uri method config init_uri init_method d
  = let dict_config := json_roundtrip config in
    if py_eq e dict_config then
      (inr (RRet (mkRet (py_str name) (VBool true) [] "Config is already set")),
       d1, map EvGetData us)
    else if is_True opts_test then
      (inr (RRet (mkRet (py_str name) VNone
                    (reported (new_diff e dict_config))
                    "Config will be added")),
       d1, (map EvGetData us ++ diff_events e dict_config)%list)
    else
      let (resp, d2) :=
        set_data (request_uri l) (request_method l) dict_config d1 in
      if status_in [201%Z; 200%Z; 204%Z] (status resp) then
        (inr (RRet (mkRet (py_str name) (VBool true)
                      (if String.eqb (py_str method) "PATCH"
                       then dict_set (KStr "removed") None
                              (reported (new_diff e dict_config))
                       else reported (new_diff e dict_config))
                      "Successfully added config")),
         d2,
         (map EvGetData us
          ++ EvSetData (request_uri l) (request_method l) dict_config
             :: diff_events e dict_config)%list)
      else
        (inr (RRet (mkRet (py_str name) (VBool false) []
                      (failure_comment (why_of resp) (status resp)
                         (uri_used l)))),
         d2,
         (map EvGetData us
          ++ [EvSetData (request_uri l) (request_method l) dict_config;
              EvPrint (PPostContent dict_config)])%list).
Proof.
  intros Hv R He.
  destruct (valid_request_inv _ _ _ _ Hv) as (Hu & Hn & Hm & Hc).
  unfold config_manage. rewrite Hu, Hn, Hm, Hc. cbn [negb].
  unfold bind, salt_get_data.
  destruct R as [r d1 e' G1 S1 D1 | r1 r2 d1 d2 e' G1 S1 G2 S2 D2];
    cbn [existing] in He; injection He as ->.
  - rewrite G1. apply status_in_200 in S1. rewrite S1.
    unfold get_dict. rewrite D1. step.
    destruct (py_eq e (json_roundtrip config)); [reflexivity|].
    destruct (is_True opts_test); [reflexivity|].
    unfold salt_set_data.
    destruct (set_data _ _ _ d1) as [resp d2]. step.
    destruct (status_in _ (status resp)).
    + step. destruct (String.eqb (py_str method) "PATCH"); reflexivity.
    + reflexivity.
  - rewrite G1. rewrite (status_in_200_false _ S1). step.
    rewrite G2. apply status_in_200 in S2. rewrite S2.
    unfold get_dict. rewrite D2. step.
    destruct (py_eq e (json_roundtrip config)); [reflexivity|].
    destruct (is_True opts_test); [reflexivity|].
    unfold salt_set_data.
    destruct (set_data _ _ _ d2) as [resp d3]. step.
    destruct (status_in _ (status resp)).
    + step. destruct (String.eqb (py_str method) "PATCH"); reflexivity.
    + reflexivity.
Qed.

Lemma writes_reads (us : list value) :
  writes (map (@EvGetData (report item)) us) = [].
Proof. induction us; [reflexivity | assumption]. Qed.

Lemma diffs_reads (us : list value) :
  diffs (map (@EvGetData (report item)) us) = [].
Proof. induction us; [reflexivity | assumption]. Qed.

(** A valid request either finds a working URI, or stops on a reply with
    status 200 and no decoded document ([KeyError]), or finds none. *)
Lemma run_valid_cases name uri method config init_uri init_method d :
  valid_request name uri method config = true ->
  (exists l d1 us e,
      resolves uri method init_uri init_method d l d1 us
      /\ existing l = Some e)
  \/ (exists d1 us,
         run name uri method config init_uri init_method d
         = (inl (KeyError "dict"), d1, map EvGetData us))
  \/ (exists r1 d1 r2 d2,
         get_data (VStr (py_str uri)) d = (r1, d1)
         /\ status r1 <> 200%Z
         /\ get_data init_uri d1 = (r2, d2)
         /\ status r2 <> 200%Z).
Proof.
  intros Hv.
  destruct (valid_request_inv _ _ _ _ Hv) as (Hu & Hn & Hm & Hc).
  destruct (get_data (VStr (py_str uri)) d) as [r1 d1] eqn:G1.
  destruct (Z.eq_dec (status r1) 200) as [S1|S1].
  - destruct (resp_dict r1) as [e|] eqn:D1.
    + left. do 4 eexists. split; [eapply resolved_primary; eauto|reflexivity].
    + right; left. exists d1, [VStr (py_str uri)].
      unfold config_manage. rewrite Hu, Hn, Hm, Hc. cbn [negb].
      unfold bind, salt_get_data. rewrite G1.
      apply status_in_200 in S1. rewrite S1.
      unfold get_dict. rewrite D1. reflexivity.
  - destruct (get_data init_uri d1) as [r2 d2] eqn:G2.
    destruct (Z.eq_dec (status r2) 200) as [S2|S2].
    + destruct (resp_dict r2) as [e|] eqn:D2.
      * left. do 4 eexists.
        split; [eapply resolved_init; eauto|reflexivity].
      * right; left. exists d2, [VStr (py_str uri); init_uri].
        unfold config_manage. rewrite Hu, Hn, Hm, Hc. cbn [negb].
        unfold bind, salt_get_data. rewrite G1.
        rewrite (status_in_200_false _ S1). step. rewrite G2.
        apply status_in_200 in S2. rewrite S2.
        unfold get_dict. rewrite D2. reflexivity.
    + right; right. exists r1, d1, r2, d2. auto.
Qed.

(** C1. With the test option set to [True], no run of [config_manage]
    calls [restconf.set_data], whatever the request and the device and
    whether or not the configuration read equals the desired one; in
    particular none that passes validation and finds a working URI. *)
Theorem dry_run_never_writes name uri method config init_uri init_method d :
  opts_test = VBool true ->
  writes (events (run name uri method config init_uri init_method d)) = [].
Proof.
  intros Ht.
  destruct (valid_request name uri method config) eqn:Hv.
  - destruct (run_valid_cases name uri method config init_uri init_method d Hv)
      as [(l & d1 & us & e & R & He) | [(d1 & us & E) | (r1 & d1 & r2 & d2 & G1 & S1 & G2 & S2)]].
    + rewrite (run_resolved _ _ _ _ _ _ _ _ _ _ _ Hv R He). cbv zeta.
      rewrite Ht. cbn [is_True].
      destruct (py_eq e (json_roundtrip config)); cbn [events snd].
      * apply writes_reads.
      * unfold writes. rewrite filter_app. fold (writes (map (@EvGetData (report item)) us)).
        rewrite writes_reads. reflexivity.
    + rewrite E. cbn [events snd]. apply writes_reads.
    + rewrite (run_unresolved _ _ _ _ _ _ _ _ _ _ _ Hv G1 S1 G2 S2).
      reflexivity.
  - destruct (run_invalid name uri method config init_uri init_method d Hv)
      as (msg & _ & E).
    rewrite E. reflexivity.
Qed.

(** C4. When a working URI is found and the configuration read there
    equals ([==]) the desired one, the result is [True] with the comment
    "Config is already set" and no changes, and [restconf.set_data] is
    not called. *)
Theorem matching_config_is_left_alone
    name uri method config init_uri init_method d l d1 us e :
  valid_request name uri method config = true ->
  resolves uri method init_uri init_method d l d1 us ->
  existing l = Some e ->
  py_eq e (json_roundtrip config) = true ->
  returned (run name uri method config init_uri init_method d)
  = Some (RRet (mkRet (py_str name) (VBool true) [] "Config is already set"))
  /\ writes (events (run name uri method config init_uri init_method d)) = [].
Proof.
  intros Hv R He Heq.
  rewrite (run_resolved _ _ _ _ _ _ _ _ _ _ _ Hv R He). cbv zeta.
  rewrite Heq. split; [reflexivity|]. cbn [events snd]. apply writes_reads.
Qed.

(** The same with the caller's own [config], when it has string keys only
    and so is its own round trip. *)
Lemma matching_json_config_is_left_alone
    name uri method config init_uri init_method d l d1 us e :
  valid_request name uri method config = true ->
  resolves uri method init_uri init_method d l d1 us ->
  existing l = Some e ->
  json_shaped config = true ->
  py_eq e config = true ->
  run name uri method config init_uri init_method d
  = (inr (RRet (mkRet (py_str name) (VBool true) [] "Config is already set")),
     d1, map EvGetData us).
Proof.
  intros Hv R He J Heq.
  rewrite (run_resolved _ _ _ _ _ _ _ _ _ _ _ Hv R He). cbv zeta.
  rewrite (json_roundtrip_stable _ J), Heq. reflexivity.
Qed.

(** C5. When neither the read of [uri] nor the read of [init_uri] answers
    200, the result is [False] with the comment that no working URI was
    found and no changes; nothing is written and no diff is computed. *)
Theorem no_working_uri_is_reported
    name uri method config init_uri init_method d r1 d1 r2 d2 :
  valid_request name uri method config = true ->
  get_data (VStr (py_str uri)) d = (r1, d1) ->
  status r1 <> 200%Z ->
  get_data init_uri d1 = (r2, d2) ->
  status r2 <> 200%Z ->
  returned (run name uri method config init_uri init_method d)
  = Some (RRet (mkRet (py_str name) (VBool false) []
                  "restconf could not find a working URI to get initial config"))
  /\ writes (events (run name uri method config init_uri init_method d)) = []
  /\ diffs (events (run name uri method config init_uri init_method d)) = [].
Proof.
  intros Hv G1 S1 G2 S2.
  rewrite (run_unresolved _ _ _ _ _ _ _ _ _ _ _ Hv G1 S1 G2 S2).
  repeat split.
Qed.

(** C6. When the write answers with a status other than 200, 201 and 204,
    the result is [False] with no changes and no diff is computed; its
    comment holds the status code, the reply's decoded document (or else
    its body, or else [None]) and the URI that was used, "Primary" or
    "init". *)
Theorem failed_write_is_reported
    name uri method config init_uri init_method d l d1 us e resp d2 :
  valid_request name uri method config = true ->
  resolves uri method init_uri init_method d l d1 us ->
  existing l = Some e ->
  py_eq e (json_roundtrip config) = false ->
  is_True opts_test = false ->
  set_data (request_uri l) (request_method l) (json_roundtrip config) d1
  = (resp, d2) ->
  status_in [201%Z; 200%Z; 204%Z] (status resp) = false ->
  exists r,
    returned (run name uri method config init_uri init_method d)
    = Some (RRet r)
    /\ ret_result r = VBool false
    /\ ret_changes r = []
    /\ diffs (events (run name uri method config init_uri init_method d)) = []
    /\ occurs (str_Z (status resp)) (ret_comment r) = true
    /\ (forall v, resp_dict resp = Some v ->
                  occurs (py_str v) (ret_comment r) = true)
    /\ (forall v, resp_dict resp = None -> resp_body resp = Some v ->
                  occurs (py_str v) (ret_comment r) = true)
    /\ occurs ("URI:" ++ uri_used l) (ret_comment r) = true
    /\ (uri_used l = "Primary" \/ uri_used l = "init").
Proof.
  intros Hv R He Hne Ht Hw Hs.
  rewrite (run_resolved _ _ _ _ _ _ _ _ _ _ _ Hv R He). cbv zeta.
  rewrite Hne, Ht, Hw, Hs.
  eexists. split; [reflexivity|]. cbn [ret_result ret_changes ret_comment].
  unfold failure_comment.
  assert (Hwhy : occurs (py_str (why_of resp))
                   ("failed to add / modify config. API Statuscode: "
                    ++ str_Z (status resp) ++ ", API Response: "
                    ++ py_str (why_of resp) ++ ", URI:" ++ uri_used l) = true).
  { do 3 apply occurs_later. apply occurs_here. }
  repeat split.
  - cbn [events snd]. unfold diffs. rewrite filter_app.
    fold (diffs (map (@EvGetData (report item)) us)).
    rewrite diffs_reads. reflexivity.
  - apply occurs_later, occurs_here.
  - intros v Hd.
    replace v with (why_of resp) by (unfold why_of; rewrite Hd; reflexivity).
    exact Hwhy.
  - intros v Hd Hb.
    replace v with (why_of resp)
      by (unfold why_of; rewrite Hd, Hb; reflexivity).
    exact Hwhy.
  - do 4 apply occurs_later.
    change (", URI:" ++ uri_used l) with (", " ++ "URI:" ++ uri_used l).
    apply occurs_later, occurs_self.
  - destruct R; [left | right]; reflexivity.
Qed.

(** C8. When the method is PATCH and the write answers 200, 201 or 204,
    the result files [None] under "removed" whatever [DeepDiff] found,
    and files the added and changed views as [_restDiff] computed them. *)
Theorem patch_applied_hides_removed
    name uri method config init_uri init_method d l d1 us e resp d2 :
  valid_request name uri method config = true ->
  resolves uri method init_uri init_method d l d1 us ->
  existing l = Some e ->
  py_eq e (json_roundtrip config) = false ->
  is_True opts_test = false ->
  set_data (request_uri l) (request_method l) (json_roundtrip config) d1
  = (resp, d2) ->
  status_in [201%Z; 200%Z; 204%Z] (status resp) = true ->
  py_str method = "PATCH" ->
  exists r,
    returned (run name uri method config init_uri init_method d)
    = Some (RRet r)
    /\ ret_result r = VBool true
    /\ dict_get (KStr "removed") (ret_changes r) = Some None
    /\ dict_get (KStr "new") (ret_changes r)
       = Some (added item str_item (new_diff e (json_roundtrip config)))
    /\ dict_get (KStr "changed") (ret_changes r)
       = Some (changed item str_item (new_diff e (json_roundtrip config))).
Proof.
  intros Hv R He Hne Ht Hw Hs Hm.
  rewrite (run_resolved _ _ _ _ _ _ _ _ _ _ _ Hv R He). cbv zeta.
  rewrite Hne, Ht, Hw, Hs, Hm.
  eexists. split; [reflexivity|]. repeat split.
Qed.

(** C10. Past the search for a working URI, the configuration that is
    compared with the one read and that is sent to [restconf.set_data] is
    [json.loads(json.dumps(config))], not [config]: the run answers
    "Config is already set" exactly when the configuration read equals
    the round trip, and a write carries the round trip as its payload.
    The round trip is what the [json] module documents of [config]: its
    keys are exactly the JSON spellings of the keys of [config], under
    each stands the decoded value of the last entry so spelled, and at
    every depth its dictionaries have string keys only. *)
Theorem desired_config_is_json_roundtrip
    name uri method config init_uri init_method d l d1 us e :
  valid_request name uri method config = true ->
  resolves uri method init_uri init_method d l d1 us ->
  existing l = Some e ->
  (returned (run name uri method config init_uri init_method d)
   = Some (RRet (mkRet (py_str name) (VBool true) [] "Config is already set"))
   <-> py_eq e (json_roundtrip config) = true)
  /\ writes (events (run name uri method config init_uri init_method d))
     = (if py_eq e (json_roundtrip config) || is_True opts_test then []
        else [EvSetData (request_uri l) (request_method l)
                (json_roundtrip config)])
  /\ (forall k, In k (keys_of (json_roundtrip config)) ->
                exists k0, In k0 (keys_of config)
                           /\ k = KStr (json_key k0))
  /\ (forall k0, In k0 (keys_of config) ->
                 In (KStr (json_key k0)) (keys_of (json_roundtrip config)))
  /\ json_decoded config (json_roundtrip config)
  /\ json_shaped (json_roundtrip config) = true.
Proof.
  intros Hv R He.
  rewrite (run_resolved _ _ _ _ _ _ _ _ _ _ _ Hv R He). cbv zeta.
  split; [|split; [|split; [|split; [|split]]]];
    [ | | | | apply json_roundtrip_decoded | apply json_roundtrip_shaped ].
  - destruct (py_eq e (json_roundtrip config)); [split; reflexivity|].
    split; [|discriminate].
    destruct (is_True opts_test); [discriminate|].
    destruct (set_data _ _ _ d1) as [resp d2].
    destruct (status_in _ (status resp)); discriminate.
  - destruct (py_eq e (json_roundtrip config)); cbn [orb events snd].
    { apply writes_reads. }
    destruct (is_True opts_test); cbn [events snd].
    { unfold writes. rewrite filter_app.
      fold (writes (map (@EvGetData (report item)) us)).
      rewrite writes_reads. reflexivity. }
    destruct (set_data _ _ _ d1) as [resp d2].
    destruct (status_in _ (status resp)); cbn [events snd];
      unfold writes; rewrite filter_app;
      fold (writes (map (@EvGetData (report item)) us));
      rewrite writes_reads; reflexivity.
  - apply json_roundtrip_keys.
  - intros k0 H0.
    destruct (valid_request_inv _ _ _ _ Hv) as (_ & _ & _ & Hc).
    destruct config as [| | | | |dc]; try discriminate Hc.
    cbn [json_roundtrip keys_of] in *. apply load_pairs_has_key. exact H0.
Qed.

(** In test mode the three views are filed as [_restDiff] computed them,
    whatever the method. *)
Lemma dry_run_reports_diff
    name uri method config init_uri init_method d l d1 us e :
  valid_request name uri method config = true ->
  resolves uri method init_uri init_method d l d1 us ->
  existing l = Some e ->
  py_eq e (json_roundtrip config) = false ->
  is_True opts_test = true ->
  returned (run name uri method config init_uri init_method d)
  = Some (RRet (mkRet (py_str name) VNone
                  (reported (new_diff e (json_roundtrip config)))
                  "Config will be added")).
Proof.
  intros Hv R He Hne Ht.
  rewrite (run_resolved _ _ _ _ _ _ _ _ _ _ _ Hv R He). cbv zeta.
  rewrite Hne, Ht. reflexivity.
Qed.

(** When the read of [uri] does not answer 200, [init_uri] is read next,
    whatever it is. *)
Lemma primary_miss_reads_init_uri
    name uri method config init_uri init_method d r1 d1 :
  valid_request name uri method config = true ->
  get_data (VStr (py_str uri)) d = (r1, d1) ->
  status r1 <> 200%Z ->
  exists t,
    events (run name uri method config init_uri init_method d)
    = EvGetData (VStr (py_str uri)) :: EvGetData init_uri :: t.
Proof.
  intros Hv G1 S1.
  destruct (get_data init_uri d1) as [r2 d2] eqn:G2.
  destruct (Z.eq_dec (status r2) 200) as [S2|S2].
  - destruct (resp_dict r2) as [e|] eqn:D2.
    + pose proof (resolved_init dev get_data uri method init_uri init_method
                    d r1 r2 d1 d2 e G1 S1 G2 S2 D2) as R.
      rewrite (run_resolved _ _ _ _ _ _ _ _ _ _ _ Hv R eq_refl). cbv zeta.
      destruct (py_eq e (json_roundtrip config)); [eexists; reflexivity|].
      destruct (is_True opts_test); [eexists; reflexivity|].
      destruct (set_data _ _ _ d2) as [resp d3].
      destruct (status_in _ (status resp)); eexists; reflexivity.
    + destruct (valid_request_inv _ _ _ _ Hv) as (Hu & Hn & Hm & Hc).
      unfold config_manage. rewrite Hu, Hn, Hm, Hc. cbn [negb].
      unfold bind, salt_get_data. rewrite G1.
      rewrite (status_in_200_false _ S1). step. rewrite G2.
      apply status_in_200 in S2. rewrite S2.
      unfold get_dict. rewrite D2. eexists; reflexivity.
  - rewrite (run_unresolved _ _ _ _ _ _ _ _ _ _ _ Hv G1 S1 G2 S2).
    eexists; reflexivity.
Qed.

(** C3, as the code has it. In test mode, when the configurations differ,
    the result files the removed view as [_restDiff] computed it, also when
    the method is PATCH: a removed key that [DeepDiff] found is reported,
    not replaced by [None] as it is after a successful write. *)
Theorem patch_dry_run_reports_removed
    name uri method config init_uri init_method d l d1 us e s :
  valid_request name uri method config = true ->
  resolves uri method init_uri init_method d l d1 us ->
  existing l = Some e ->
  py_eq e (json_roundtrip config) = false ->
  is_True opts_test = true ->
  py_str method = "PATCH" ->
  removed item str_item (new_diff e (json_roundtrip config)) = Some s ->
  exists r,
    returned (run name uri method config init_uri init_method d)
    = Some (RRet r)
    /\ ret_result r = VNone
    /\ ret_comment r = "Config will be added"
    /\ dict_get (KStr "removed") (ret_changes r) = Some (Some s).
Proof.
  intros Hv R He Hne Ht Hm Hs.
  rewrite (dry_run_reports_diff _ _ _ _ _ _ _ _ _ _ _ Hv R He Hne Ht).
  eexists. split; [reflexivity|]. repeat split.
  cbn [ret_changes]. unfold reported. cbn. f_equal. exact Hs.
Qed.

(** C7, as the code has it. With no [init_uri] given (it is [None]) and a
    first read that does not answer 200, the run still makes a second
    read, of the URI [None]. *)
Theorem absent_init_uri_is_read
    name uri method config init_method d r1 d1 :
  valid_request name uri method config = true ->
  get_data (VStr (py_str uri)) d = (r1, d1) ->
  status r1 <> 200%Z ->
  exists t,
    events (run name uri method config VNone init_method d)
    = EvGetData (VStr (py_str uri)) :: EvGetData VNone :: t.
Proof.
  intros Hv G1 S1.
  exact (primary_miss_reads_init_uri name uri method config VNone init_method
           d r1 d1 Hv G1 S1).
Qed.

(** C2, as the code has it. A request with an empty [uri], [name] or
    [method], or whose [config] is not of type [dict], is turned down
    before any device I/O and any diff: the call logs one critical
    message and returns the bare [False], not a result dictionary. *)
Theorem invalid_request_returns_False
    name uri method config init_uri init_method d :
  py_str uri = "" \/ py_str name = "" \/ py_str method = ""
  \/ type_is_dict config = false ->
  returned (run name uri method config init_uri init_method d) = Some RFalse
  /\ device_io (events (run name uri method config init_uri init_method d))
     = []
  /\ diffs (events (run name uri method config init_uri init_method d)) = []
  /\ exists msg,
       msg <> ""
       /\ events (run name uri method config init_uri init_method d)
          = [EvLogCritical msg].
Proof.
  intros H.
  assert (Hv : valid_request name uri method config = false).
  { unfold valid_request.
    destruct H as [-> | [-> | [-> | ->]]]; cbn;
      rewrite ?andb_false_r; reflexivity. }
  destruct (run_invalid name uri method config init_uri init_method d Hv)
    as (msg & Hmsg & E).
  rewrite E. repeat split. exists msg. split; [assumption | reflexivity].
Qed.

End Runs.

(** ** The reference [DeepDiff] *)

Module DeepDiffFacts.

Import DeepDiffModel Cases.

Lemma keys_not_in_nil (p : string) (mk : string -> finding) (d other : dict) :
  (forall kv, In kv d -> dict_mem (fst kv) other = true) ->
  keys_not_in p mk d other = [].
Proof.
  unfold keys_not_in. induction d as [|kv d IH]; [reflexivity|].
  intros H. cbn [flat_map]. rewrite (H kv (or_introl eq_refl)), orb_true_r.
  apply IH. intros kv' Hin. apply H. right. assumption.
Qed.


Lemma walk_common_nil (p : string) (d1 d : dict) :
  (forall k v2, In (k, v2) d ->
                match dict_get k d1 with
                | Some v1 => walk (child_key p k) v1 v2 = []
                | None => True
                end) ->
  walk_common walk p d1 d = [].
Proof.
  induction d as [|[k v2] d IH]; [reflexivity|].
  intros H. cbn [walk_common].
  rewrite IH by (intros k' v' Hin; apply H; right; assumption).
  pose proof (H k v2 (or_introl eq_refl)) as Hk.
  destruct (private k); [reflexivity|].
  destruct (dict_get k d1); [rewrite Hk|]; reflexivity.
Qed.

Lemma walk_items_self (p : string) (l : list value) :
  Forall (fun v => forall q, walk q v v = []) l ->
  forall i, walk_items walk p i l l = [].
Proof.
  induction 1 as [|x l Hx Hl IH]; intros i; [reflexivity|].
  cbn [walk_items]. rewrite Hx, IH. reflexivity.
Qed.

(** A value differs in nothing from itself. *)
Lemma walk_self (v : value) : wf v = true -> forall p, walk p v v = [].
Proof.
  induction v as [| b | z | s | l IH | d IH] using value_ind; intros W p.
  - reflexivity.
  - cbn. rewrite Bool.eqb_reflx. reflexivity.
  - cbn. rewrite Z.eqb_refl. reflexivity.
  - cbn. rewrite String.eqb_refl. reflexivity.
  - cbn [walk same_type type_name String.eqb Ascii.eqb Bool.eqb negb].
    apply walk_items_self.
    cbn [wf] in W. rewrite forallb_forall in W.
    rewrite Forall_forall in IH |- *.
    intros x Hx q. apply IH; [assumption | apply W; assumption].
  - cbn [walk same_type type_name String.eqb Ascii.eqb Bool.eqb negb].
    cbn [wf] in W. apply andb_prop in W. destruct W as [U W].
    rewrite forallb_forall in W. rewrite Forall_forall in IH.
    rewrite (keys_not_in_nil p FAdded d d), (keys_not_in_nil p FRemoved d d).
    + apply walk_common_nil. intros k v2 Hin.
      rewrite (dict_get_in k v2 d U Hin).
      apply (IH (k, v2) Hin); apply (W (k, v2) Hin).
    + intros [k x] Hin. apply (dict_mem_in k k x d Hin), key_eqb_refl.
    + intros [k x] Hin. apply (dict_mem_in k k x d Hin), key_eqb_refl.
Qed.

(** The three views of [_restDiff], read off the findings of the walk,
    whatever way the entries of the report print. *)
Lemma views_of_walk (str : item -> string) (a b : value) :
  added item str (rest_diff a b)
  = match items_added (walk "root" a b) with
    | [] => None
    | ps => Some (str (Paths ps))
    end
  /\ removed item str (rest_diff a b)
     = match items_removed (walk "root" a b) with
       | [] => None
       | ps => Some (str (Paths ps))
       end
  /\ changed item str (rest_diff a b)
     = match values_changed (walk "root" a b) with
       | [] => None
       | cs => Some (str (Changes cs))
       end.
Proof.
  unfold rest_diff, _restDiff_new, added, removed, changed, DeepDiff,
    report_of.
  cbn [diff].
  destruct (type_changes (walk "root" a b)),
    (items_added (walk "root" a b)),
    (items_removed (walk "root" a b)),
    (values_changed (walk "root" a b)),
    (iter_added (walk "root" a b)),
    (iter_removed_of (walk "root" a b)); repeat split.
Qed.




End DeepDiffFacts.

(** ** The claims on concrete runs and on the reference [DeepDiff] *)

Module Claims.

Import Scripted Cases DeepDiffModel.

Lemma dry_run_never_writes_witness :
  writes (events (manage true "PUT" config_x dev_stale)) = [].
Proof.
  apply (dry_run_never_writes device get_data set_data (VBool true) item
           DeepDiff pretty str_item).
  reflexivity.
Defined.

(** C2, against the specification's reading: an empty mapping gets past
    validation and the device is read; an empty name is turned down with
    the bare [False], which is no result dictionary. *)
Lemma validation_counterexample :
  ~ Spec.validation_claim (VBool false) (VStr "iface1") (VStr "/a")
      (VStr "PUT") (VDict []) VNone (VStr "PATCH") dev_matching
  /\ ~ Spec.validation_claim (VBool false) (VStr "") (VStr "/a")
         (VStr "PUT") config_x VNone (VStr "PATCH") dev_matching.
Proof.
  split; intros H.
  - destruct (H eq_refl) as (Hio & _). discriminate Hio.
  - destruct (H eq_refl) as (_ & _ & res & Hres & _). discriminate Hres.
Qed.

Lemma invalid_request_returns_False_witness :
  returned (run (VBool false) (VStr "") (VStr "/a") (VStr "PUT") config_x
              VNone (VStr "PATCH") dev_matching) = Some RFalse
  /\ device_io (events (run (VBool false) (VStr "") (VStr "/a") (VStr "PUT")
                          config_x VNone (VStr "PATCH") dev_matching)) = []
  /\ diffs (events (run (VBool false) (VStr "") (VStr "/a") (VStr "PUT")
                      config_x VNone (VStr "PATCH") dev_matching)) = []
  /\ exists msg,
       msg <> ""
       /\ events (run (VBool false) (VStr "") (VStr "/a") (VStr "PUT")
                    config_x VNone (VStr "PATCH") dev_matching)
          = [EvLogCritical msg].
Proof.
  apply (invalid_request_returns_False device get_data set_data (VBool false)
           item DeepDiff pretty str_item).
  right; left; reflexivity.
Defined.

Lemma patch_dry_run_reports_removed_witness :
  exists r,
    returned (manage true "PATCH" config_x dev_stale) = Some (RRet r)
    /\ ret_result r = VNone
    /\ ret_comment r = "Config will be added"
    /\ dict_get (KStr "removed") (ret_changes r) = Some (Some "[root['y']]").
Proof.
  apply (patch_dry_run_reports_removed device get_data set_data (VBool true)
           item DeepDiff pretty str_item
           (VStr "iface1") (VStr "/a") (VStr "PATCH") config_x VNone
           (VStr "PATCH") dev_stale
           (mkLocals (Some config_xy) true "Primary" (VStr "/a")
              (VStr "PATCH"))
           dev_stale [VStr "/a"] config_xy "[root['y']]").
  - reflexivity.
  - apply (resolved_primary device get_data (VStr "/a") (VStr "PATCH") VNone
             (VStr "PATCH") dev_stale (ok config_xy) dev_stale config_xy);
      reflexivity.
  - reflexivity.
  - reflexivity.
  - reflexivity.
  - reflexivity.
  - reflexivity.
Defined.

(** The whole result of that run: test mode, method PATCH, and a device
    document with a key [y] that the desired configuration lacks. *)
Example patch_dry_run_result :
  returned (manage true "PATCH" config_x dev_stale)
  = Some (RRet (mkRet "iface1" VNone
                  (reported item str_item (rest_diff config_xy config_x))
                  "Config will be added"))
  /\ view_removed (rest_diff config_xy config_x) = Some "[root['y']]"
  /\ writes (events (manage true "PATCH" config_x dev_stale)) = [].
Proof. repeat split. Qed.

Lemma matching_config_is_left_alone_witness :
  returned (manage false "PUT" config_x dev_matching)
  = Some (RRet (mkRet "iface1" (VBool true) [] "Config is already set"))
  /\ writes (events (manage false "PUT" config_x dev_matching)) = [].
Proof.
  apply (matching_config_is_left_alone device get_data set_data (VBool false)
           item DeepDiff pretty str_item
           (VStr "iface1") (VStr "/a") (VStr "PUT") config_x VNone
           (VStr "PATCH") dev_matching
           (mkLocals (Some config_x) true "Primary" (VStr "/a") (VStr "PUT"))
           dev_matching [VStr "/a"] config_x).
  - reflexivity.
  - apply (resolved_primary device get_data (VStr "/a") (VStr "PUT") VNone
             (VStr "PATCH") dev_matching (ok config_x) dev_matching config_x);
      reflexivity.
  - reflexivity.
  - reflexivity.
Defined.

Lemma no_working_uri_is_reported_witness :
  returned (run (VBool false) (VStr "iface1") (VStr "/a") (VStr "PUT")
              config_x (VStr "/b") (VStr "PATCH") dev_empty)
  = Some (RRet (mkRet "iface1" (VBool false) []
                  "restconf could not find a working URI to get initial config"))
  /\ writes (events (run (VBool false) (VStr "iface1") (VStr "/a")
                       (VStr "PUT") config_x (VStr "/b") (VStr "PATCH")
                       dev_empty)) = []
  /\ diffs (events (run (VBool false) (VStr "iface1") (VStr "/a")
                      (VStr "PUT") config_x (VStr "/b") (VStr "PATCH")
                      dev_empty)) = [].
Proof.
  apply (no_working_uri_is_reported device get_data set_data (VBool false)
           item DeepDiff pretty str_item
           (VStr "iface1") (VStr "/a") (VStr "PUT") config_x (VStr "/b")
           (VStr "PATCH") dev_empty no_reply dev_empty no_reply dev_empty).
  - reflexivity.
  - reflexivity.
  - cbn; lia.
  - reflexivity.
  - cbn; lia.
Defined.

Lemma failed_write_is_reported_witness :
  exists r,
    returned (manage false "PUT" config_x dev_refusing) = Some (RRet r)
    /\ ret_result r = VBool false
    /\ ret_changes r = []
    /\ diffs (events (manage false "PUT" config_x dev_refusing)) = []
    /\ occurs "500" (ret_comment r) = true
    /\ (forall v, resp_dict (write_reply dev_refusing) = Some v ->
                  occurs (py_str v) (ret_comment r) = true)
    /\ (forall v, resp_dict (write_reply dev_refusing) = None ->
                  resp_body (write_reply dev_refusing) = Some v ->
                  occurs (py_str v) (ret_comment r) = true)
    /\ occurs "URI:Primary" (ret_comment r) = true
    /\ ("Primary" = "Primary" \/ "Primary" = "init").
Proof.
  apply (failed_write_is_reported device get_data set_data (VBool false)
           item DeepDiff pretty str_item
           (VStr "iface1") (VStr "/a") (VStr "PUT") config_x VNone
           (VStr "PATCH") dev_refusing
           (mkLocals (Some config_xy) true "Primary" (VStr "/a") (VStr "PUT"))
           dev_refusing [VStr "/a"] config_xy
           (write_reply dev_refusing) dev_refusing).
  - reflexivity.
  - apply (resolved_primary device get_data (VStr "/a") (VStr "PUT") VNone
             (VStr "PATCH") dev_refusing (ok config_xy) dev_refusing
             config_xy); reflexivity.
  - reflexivity.
  - reflexivity.
  - reflexivity.
  - reflexivity.
  - reflexivity.
Defined.

(** The scenario of the specification: the write answers 500 with the
    document [{"error": "bad"}]. *)
Example failed_write_message :
  returned (manage false "PUT" config_x dev_refusing)
  = Some (RRet (mkRet "iface1" (VBool false) []
                  "failed to add / modify config. API Statuscode: 500, API Response: {'error': 'bad'}, URI:Primary")).
Proof. reflexivity. Qed.

Lemma absent_init_uri_is_read_witness :
  exists t,
    events (manage false "PUT" config_x dev_empty)
    = EvGetData (VStr "/a") :: EvGetData VNone :: t.
Proof.
  apply (absent_init_uri_is_read device get_data set_data (VBool false) item
           DeepDiff pretty str_item
           (VStr "iface1") (VStr "/a") (VStr "PUT") config_x (VStr "PATCH")
           dev_empty no_reply dev_empty).
  - reflexivity.
  - reflexivity.
  - cbn; lia.
Defined.

(** The whole of that run: two reads, the second of the URI [None], and
    then the report that no URI works. *)
Example absent_init_uri_run :
  events (manage false "PUT" config_x dev_empty)
  = [EvGetData (VStr "/a"); EvGetData VNone]
  /\ returned (manage false "PUT" config_x dev_empty)
     = Some (RRet (mkRet "iface1" (VBool false) []
                     "restconf could not find a working URI to get initial config")).
Proof. split; reflexivity. Qed.

(** The scenario of the specification: [/a] answers 404, [/b] holds [{}],
    and the write, made to [/b] with the fallback method, answers 201.  The
    added view is the text of a path set. *)
Example fallback_write :
  returned (run (VBool false) (VStr "iface1") (VStr "/a") (VStr "PUT")
              config_x (VStr "/b") (VStr "PATCH") dev_fallback)
  = Some (RRet (mkRet "iface1" (VBool true)
                  [(KStr "new", Some "[root['x']]"); (KStr "removed", None);
                   (KStr "changed", None)]
                  "Successfully added config"))
  /\ writes (events (run (VBool false) (VStr "iface1") (VStr "/a")
                       (VStr "PUT") config_x (VStr "/b") (VStr "PATCH")
                       dev_fallback))
     = [EvSetData (VStr "/b") (VStr "PATCH") config_x].
Proof. split; reflexivity. Qed.

Lemma patch_applied_hides_removed_witness :
  exists r,
    returned (manage false "PATCH" config_x dev_stale) = Some (RRet r)
    /\ ret_result r = VBool true
    /\ dict_get (KStr "removed") (ret_changes r) = Some None
    /\ dict_get (KStr "new") (ret_changes r)
       = Some (view_added (rest_diff config_xy config_x))
    /\ dict_get (KStr "changed") (ret_changes r)
       = Some (view_changed (rest_diff config_xy config_x)).
Proof.
  apply (patch_applied_hides_removed device get_data set_data (VBool false)
           item DeepDiff pretty str_item
           (VStr "iface1") (VStr "/a") (VStr "PATCH") config_x VNone
           (VStr "PATCH") dev_stale
           (mkLocals (Some config_xy) true "Primary" (VStr "/a")
              (VStr "PATCH"))
           dev_stale [VStr "/a"] config_xy (write_reply dev_stale) dev_stale).
  - reflexivity.
  - apply (resolved_primary device get_data (VStr "/a") (VStr "PATCH") VNone
             (VStr "PATCH") dev_stale (ok config_xy) dev_stale config_xy);
      reflexivity.
  - reflexivity.
  - reflexivity.
  - reflexivity.
  - reflexivity.
  - reflexivity.
  - reflexivity.
Defined.

(** In that run [DeepDiff] did find a removed key. *)
Example patch_applied_diff_had_removed :
  view_removed (rest_diff config_xy config_x) = Some "[root['y']]".
Proof. reflexivity. Qed.




(** A private key more is not reported at all. *)
Example private_extra_key_is_not_reported :
  added item str_item
    (rest_diff (VDict [(KStr "a", VInt 0)])
       (VDict [(KStr "a", VInt 0); (KStr "__x", VInt 1)]))
  = None.
Proof. reflexivity. Qed.

Lemma desired_config_is_json_roundtrip_witness :
  (returned (manage false "PUT" MoreCases.config_mixed dev_stale)
   = Some (RRet (mkRet "iface1" (VBool true) [] "Config is already set"))
   <-> py_eq config_xy MoreCases.config_mixed_decoded = true)
  /\ writes (events (manage false "PUT" MoreCases.config_mixed dev_stale))
     = [EvSetData (VStr "/a") (VStr "PUT") MoreCases.config_mixed_decoded]
  /\ (forall k, In k (keys_of MoreCases.config_mixed_decoded) ->
                exists k0, In k0 (keys_of MoreCases.config_mixed)
                           /\ k = KStr (json_key k0))
  /\ (forall k0, In k0 (keys_of MoreCases.config_mixed) ->
                 In (KStr (json_key k0))
                   (keys_of MoreCases.config_mixed_decoded))
  /\ json_decoded MoreCases.config_mixed MoreCases.config_mixed_decoded
  /\ json_shaped MoreCases.config_mixed_decoded = true.
Proof.
  apply (desired_config_is_json_roundtrip device get_data set_data
           (VBool false) item DeepDiff pretty str_item
           (VStr "iface1") (VStr "/a") (VStr "PUT")
           MoreCases.config_mixed VNone (VStr "PATCH") dev_stale
           (mkLocals (Some config_xy) true "Primary" (VStr "/a") (VStr "PUT"))
           dev_stale [VStr "/a"] config_xy).
  - reflexivity.
  - apply (resolved_primary device get_data (VStr "/a") (VStr "PUT") VNone
             (VStr "PATCH") dev_stale (ok config_xy) dev_stale config_xy);
      reflexivity.
  - reflexivity.
Defined.

(** The caller's [{1: "a"}] is not equal to the device's [{"1": "a"}], its
    round trip is. *)
Example numbered_key_compares_as_string :
  py_eq (VDict [(KStr "1", VStr "a")]) (VDict [(KInt 1, VStr "a")]) = false
  /\ json_roundtrip (VDict [(KInt 1, VStr "a")])
     = VDict [(KStr "1", VStr "a")]
  /\ returned (manage false "PUT" (VDict [(KInt 1, VStr "a")]) dev_numbered)
     = Some (RRet (mkRet "iface1" (VBool true) [] "Config is already set")).
Proof. repeat split. Qed.

End Claims.

(** * Further properties *)

(** ** [str], [==] and the JSON round trip *)

Lemma str_Z_nonempty (z : Z) : str_Z z <> "".
Proof.
  assert (U : forall d, d <> Decimal.Nil -> NilEmpty.string_of_uint d <> "").
  { intros d H. destruct d; [contradiction | discriminate ..]. }
  unfold str_Z. destruct z as [|p|p]; cbn [Z.to_int NilEmpty.string_of_int].
  - discriminate.
  - apply U, DecimalPos.Unsigned.to_uint_nonnil.
  - discriminate.
Qed.

(** [str] gives the empty string for the empty string only. *)
Lemma py_str_empty (v : value) : py_str v = "" <-> v = VStr "".
Proof.
  split; [|intros ->; reflexivity].
  destruct v as [|[|]|z|s|l|d]; cbn; try discriminate.
  - intros H. destruct (str_Z_nonempty z H).
  - intros ->. reflexivity.
Qed.

Lemma eqb_py_str_empty (v : value) :
  String.eqb (py_str v) "" = true <-> v = VStr "".
Proof. rewrite String.eqb_eq. apply py_str_empty. Qed.

(** A value with unique keys throughout equals itself. *)
Lemma py_eq_refl (v : value) : wf v = true -> py_eq v v = true.
Proof.
  induction v as [| b | z | s | l IH | d IH] using value_ind; intros W.
  - reflexivity.
  - cbn. apply Bool.eqb_reflx.
  - cbn. apply Z.eqb_refl.
  - cbn. apply String.eqb_refl.
  - cbn [py_eq]. cbn [wf] in W. rewrite forallb_forall in W.
    rewrite Forall_forall in IH.
    induction l as [|x l IHl]; [reflexivity|].
    rewrite (IH x (or_introl eq_refl) (W x (or_introl eq_refl))).
    apply IHl; intros y Hy; [apply IH | apply W]; right; assumption.
  - cbn [py_eq]. rewrite Nat.eqb_refl. cbn [andb].
    cbn [wf] in W. apply andb_prop in W. destruct W as [U W].
    rewrite forallb_forall in W. rewrite Forall_forall in IH.
    assert (G : forall d', (forall kv, In kv d' -> In kv d) ->
              (fix entries (d0 : dict) : bool :=
                 match d0 with
                 | [] => true
                 | (k, v) :: d'0 =>
                     match dict_get k d with
                     | Some w => py_eq v w
                     | None => false
                     end && entries d'0
                 end) d' = true).
    { induction d' as [|[k x] d' IHd]; intros Hsub; [reflexivity|].
      assert (Hin : In (k, x) d) by (apply Hsub; left; reflexivity).
      rewrite (dict_get_in k x d U Hin).
      pose proof (IH (k, x) Hin (W (k, x) Hin)) as E. cbn [snd] in E.
      rewrite E. apply IHd. intros kv Hkv. apply Hsub. right. assumption. }
    apply G. auto.
Qed.

(** A second round trip changes nothing: what [config_manage] compares and
    sends is already a decoded JSON document. *)
Theorem json_roundtrip_idempotent (v : value) :
  json_roundtrip (json_roundtrip v) = json_roundtrip v.
Proof. apply json_roundtrip_stable, json_roundtrip_shaped. Qed.

(** ** More on the runs of [config_manage] *)

Lemma valid_request_false_iff (name uri method config : value) :
  valid_request name uri method config = false
  <-> uri = VStr "" \/ name = VStr "" \/ method = VStr ""
      \/ type_is_dict config = false.
Proof.
  unfold valid_request.
  rewrite <- (eqb_py_str_empty uri), <- (eqb_py_str_empty name),
    <- (eqb_py_str_empty method).
  destruct (String.eqb (py_str uri) ""), (String.eqb (py_str name) ""),
    (String.eqb (py_str method) ""), (type_is_dict config); cbn;
    intuition discriminate.
Qed.

Section MoreRuns.

Variable dev : Type.
Variable get_data : value -> dev -> response * dev.
Variable set_data : value -> value -> value -> dev -> response * dev.
Variable opts_test : value.
Variable item : Type.
Variable DeepDiff : value -> value -> list (key * item).
Variable pretty : list (key * item) -> string.
Variable str_item : item -> string.

Local Abbreviation run :=
  (config_manage dev get_data set_data opts_test item DeepDiff pretty
     str_item).
Local Abbreviation new_diff := (_restDiff_new item DeepDiff pretty).
Local Abbreviation resolves := (resolved dev get_data).
Local Abbreviation diff_events := (diff_events item DeepDiff).
Local Abbreviation reported := (reported item str_item).
Local Abbreviation run_invalid' :=
  (run_invalid dev get_data set_data opts_test item DeepDiff pretty str_item).
Local Abbreviation run_unresolved' :=
  (run_unresolved dev get_data set_data opts_test item DeepDiff pretty
     str_item).
Local Abbreviation run_resolved' :=
  (run_resolved dev get_data set_data opts_test item DeepDiff pretty
     str_item).

Lemma run_undecoded_primary
    name uri method config init_uri init_method d r1 d1 :
  valid_request name uri method config = true ->
  get_data (VStr (py_str uri)) d = (r1, d1) ->
  status r1 = 200%Z ->
  resp_dict r1 = None ->
  run name uri method config init_uri init_method d
  = (inl (KeyError "dict"), d1, [EvGetData (VStr (py_str uri))]).
Proof.
  intros Hv G1 S1 D1.
  destruct (valid_request_inv _ _ _ _ Hv) as (Hu & Hn & Hm & Hc).
  unfold config_manage. rewrite Hu, Hn, Hm, Hc. cbn [negb].
  unfold bind, salt_get_data. rewrite G1.
  apply status_in_200 in S1. rewrite S1.
  unfold get_dict. rewrite D1. reflexivity.
Qed.

Lemma run_undecoded_init
    name uri method config init_uri init_method d r1 d1 r2 d2 :
  valid_request name uri method config = true ->
  get_data (VStr (py_str uri)) d = (r1, d1) ->
  status r1 <> 200%Z ->
  get_data init_uri d1 = (r2, d2) ->
  status r2 = 200%Z ->
  resp_dict r2 = None ->
  run name uri method config init_uri init_method d
  = (inl (KeyError "dict"), d2,
     [EvGetData (VStr (py_str uri)); EvGetData init_uri]).
Proof.
  intros Hv G1 S1 G2 S2 D2.
  destruct (valid_request_inv _ _ _ _ Hv) as (Hu & Hn & Hm & Hc).
  unfold config_manage. rewrite Hu, Hn, Hm, Hc. cbn [negb].
  unfold bind, salt_get_data. rewrite G1.
  rewrite (status_in_200_false _ S1). step. rewrite G2.
  apply status_in_200 in S2. rewrite S2.
  unfold get_dict. rewrite D2. reflexivity.
Qed.

(** Every run, case by case: the run in the goal is replaced by what it
    evaluates to, with the tests that led there in the context. *)
Ltac after_search config e d1 u m :=
  cbv zeta; cbn [request_uri request_method uri_used];
  destruct (py_eq e (json_roundtrip config)) eqn:Heq;
  [ | destruct (is_True opts_test) eqn:Ht;
      [ | destruct (set_data u m (json_roundtrip config) d1)
            as [resp dw] eqn:W;
          destruct (status_in [201%Z; 200%Z; 204%Z] (status resp)) eqn:Hs ] ].

Ltac run_cases name uri method config init_uri init_method d :=
  destruct (valid_request name uri method config) eqn:Hv;
  [ destruct (get_data (VStr (py_str uri)) d) as [r1 d1] eqn:G1;
    destruct (Z.eq_dec (status r1) 200) as [S1|S1];
    [ destruct (resp_dict r1) as [e|] eqn:D1;
      [ rewrite (run_resolved' name uri method config init_uri init_method d
                   _ _ _ e Hv
                   (resolved_primary dev get_data uri method init_uri
                      init_method d r1 d1 e G1 S1 D1) eq_refl);
        after_search config e d1 (VStr (py_str uri)) (VStr (py_str method))
      | rewrite (run_undecoded_primary name uri method config init_uri
                   init_method d r1 d1 Hv G1 S1 D1) ]
    | destruct (get_data init_uri d1) as [r2 d2] eqn:G2;
      destruct (Z.eq_dec (status r2) 200) as [S2|S2];
      [ destruct (resp_dict r2) as [e|] eqn:D2;
        [ rewrite (run_resolved' name uri method config init_uri init_method
                     d _ _ _ e Hv
                     (resolved_init dev get_data uri method init_uri
                        init_method d r1 r2 d1 d2 e G1 S1 G2 S2 D2) eq_refl);
          after_search config e d2 init_uri init_method
        | rewrite (run_undecoded_init name uri method config
                     init_uri init_method d r1 d1 r2 d2 Hv G1 S1 G2 S2 D2) ]
      | rewrite (run_unresolved' name uri method config init_uri init_method
                   d r1 d1 r2 d2 Hv G1 S1 G2 S2) ] ]
  | let msg := fresh "msg" in
    let Hmsg := fresh "Hmsg" in
    let E := fresh "E" in
    destruct (run_invalid' name uri method config init_uri init_method d Hv)
      as (msg & Hmsg & E);
    rewrite E ].

(** X1. [config_manage] returns the bare [False] exactly when [uri], [name]
    or [method] is the empty string or [config] is not of type [dict]:
    every other value, [None] or a number included, is taken by its [str]
    and gets past the guards. *)
Theorem returns_False_iff name uri method config init_uri init_method d :
  returned (run name uri method config init_uri init_method d) = Some RFalse
  <-> uri = VStr "" \/ name = VStr "" \/ method = VStr ""
      \/ type_is_dict config = false.
Proof.
  rewrite <- valid_request_false_iff.
  run_cases name uri method config init_uri init_method d;
    split; intros H; try discriminate H; reflexivity.
Qed.

(** X2. A run reads first and at most twice, then writes at most once and
    builds at most one diff: no read follows a write or a diff. *)
Theorem io_shape name uri method config init_uri init_method d :
  exists us rest,
    events (run name uri method config init_uri init_method d)
    = (map EvGetData us ++ rest)%list
    /\ List.length us <= 2
    /\ reads rest = []
    /\ List.length (writes rest) <= 1
    /\ List.length (diffs rest) <= 1.
Proof.
  run_cases name uri method config init_uri init_method d;
    cbn [events snd];
    match goal with
    | |- context [ (map EvGetData ?us ++ ?rest)%list ] => exists us, rest
    | |- context [ map EvGetData ?us ] => exists us, []
    | |- context [ [EvGetData ?a; EvGetData ?b] ] => exists [a; b], []
    | |- context [ [EvGetData ?a] ] => exists [a], []
    | |- context [ [EvLogCritical ?m] ] => exists [], [EvLogCritical m]
    end;
    (split; [reflexivity|]); cbn; repeat split; lia.
Qed.

(** X3. When the first read answers 200, [init_uri] is never read: the run
    makes that one read only. *)
Theorem primary_hit_never_reads_init_uri
    name uri method config init_uri init_method d r1 d1 :
  valid_request name uri method config = true ->
  get_data (VStr (py_str uri)) d = (r1, d1) ->
  status r1 = 200%Z ->
  reads (events (run name uri method config init_uri init_method d))
  = [EvGetData (VStr (py_str uri))].
Proof.
  intros Hv G1 S1. destruct (resp_dict r1) as [e|] eqn:D1.
  - rewrite (run_resolved' name uri method config init_uri init_method d
               _ _ _ e Hv
               (resolved_primary dev get_data uri method init_uri init_method
                  d r1 d1 e G1 S1 D1) eq_refl).
    after_search config e d1 (VStr (py_str uri)) (VStr (py_str method));
      reflexivity.
  - rewrite (run_undecoded_primary name uri method config init_uri
               init_method d r1 d1 Hv G1 S1 D1).
    reflexivity.
Qed.

(** X4. A reply to the first read with status 200 and no decoded document
    makes [config_manage] raise [KeyError] on the spot: [init_uri] is not
    tried, nothing is written, no diff is computed and no result is
    returned. *)
Theorem ok_reply_without_dict_raises
    name uri method config init_uri init_method d r1 d1 :
  valid_request name uri method config = true ->
  get_data (VStr (py_str uri)) d = (r1, d1) ->
  status r1 = 200%Z ->
  resp_dict r1 = None ->
  run name uri method config init_uri init_method d
  = (inl (KeyError "dict"), d1, [EvGetData (VStr (py_str uri))]).
Proof.
  intros Hv G1 S1 D1.
  exact (run_undecoded_primary name uri method config init_uri init_method
           d r1 d1 Hv G1 S1 D1).
Qed.

(** X5. When the working URI is [init_uri], the one write goes to
    [init_uri] with [init_method], and not to [uri] with [method]. *)
Theorem init_resolution_writes_to_init_uri
    name uri method config init_uri init_method d r1 d1 r2 d2 e :
  valid_request name uri method config = true ->
  get_data (VStr (py_str uri)) d = (r1, d1) ->
  status r1 <> 200%Z ->
  get_data init_uri d1 = (r2, d2) ->
  status r2 = 200%Z ->
  resp_dict r2 = Some e ->
  py_eq e (json_roundtrip config) = false ->
  is_True opts_test = false ->
  writes (events (run name uri method config init_uri init_method d))
  = [EvSetData init_uri init_method (json_roundtrip config)].
Proof.
  intros Hv G1 S1 G2 S2 D2 Hne Ht'.
  rewrite (run_resolved' name uri method config init_uri init_method d
             _ _ _ e Hv
             (resolved_init dev get_data uri method init_uri init_method
                d r1 r2 d1 d2 e G1 S1 G2 S2 D2) eq_refl).
  after_search config e d2 init_uri init_method;
    try discriminate; reflexivity.
Qed.

(** X6. After a successful write the removed view is filed as [_restDiff]
    computed it unless [method] is PATCH; the test is on [method] alone,
    also when the write was made with [init_method]. *)
Theorem applied_reports_removed_unless_patch
    name uri method config init_uri init_method d l d1 us e resp d2 :
  valid_request name uri method config = true ->
  resolves uri method init_uri init_method d l d1 us ->
  existing l = Some e ->
  py_eq e (json_roundtrip config) = false ->
  is_True opts_test = false ->
  set_data (request_uri l) (request_method l) (json_roundtrip config) d1
  = (resp, d2) ->
  status_in [201%Z; 200%Z; 204%Z] (status resp) = true ->
  py_str method <> "PATCH" ->
  returned (run name uri method config init_uri init_method d)
  = Some (RRet (mkRet (py_str name) (VBool true)
                  (reported (new_diff e (json_roundtrip config)))
                  "Successfully added config")).
Proof.
  intros Hv R He Hne Ht' Hw Hs' Hm.
  rewrite (run_resolved' _ _ _ _ _ _ _ _ _ _ _ Hv R He). cbv zeta.
  rewrite Hne, Ht', Hw, Hs'.
  apply String.eqb_neq in Hm. rewrite Hm. reflexivity.
Qed.

(** X7. The result [None] is given in test mode only, with the comment
    "Config will be added", after exactly one diff and without a write. *)
Theorem result_None_only_in_test_mode
    name uri method config init_uri init_method d r :
  returned (run name uri method config init_uri init_method d)
  = Some (RRet r) ->
  ret_result r = VNone ->
  is_True opts_test = true
  /\ ret_comment r = "Config will be added"
  /\ writes (events (run name uri method config init_uri init_method d)) = []
  /\ List.length (diffs (events (run name uri method config init_uri init_method d)))
     = 1.
Proof.
  run_cases name uri method config init_uri init_method d;
    cbn [returned fst]; intros H; try discriminate H;
    injection H as <-; cbn [ret_result]; intros H'; try discriminate H';
    repeat split.
Qed.

(** X8. The result [True] means one of two things, both tied to the run.
    The search found a working URI, left the device in the state [d1] and
    bound [existing] to [e]; then either [e] is equal to the decoded
    configuration, the comment is "Config is already set", there are no
    changes, the run did nothing but its reads and the device is left in
    [d1]; or [e] differs, the run is not a test, the one write of the run
    is [set_data] at the URI and method the search chose, applied to
    [d1], its reply [resp] has status 201, 200 or 204, and the device is
    left in the state that this very write produced. *)
Theorem result_True_means_matching_or_written
    name uri method config init_uri init_method d r :
  returned (run name uri method config init_uri init_method d)
  = Some (RRet r) ->
  ret_result r = VBool true ->
  exists l d1 us e,
    resolves uri method init_uri init_method d l d1 us
    /\ existing l = Some e
    /\ ((py_eq e (json_roundtrip config) = true
         /\ ret_comment r = "Config is already set"
         /\ ret_changes r = []
         /\ events (run name uri method config init_uri init_method d)
            = map EvGetData us
         /\ snd (fst (run name uri method config init_uri init_method d))
            = d1)
        \/ (py_eq e (json_roundtrip config) = false
            /\ is_True opts_test = false
            /\ ret_comment r = "Successfully added config"
            /\ exists resp d2,
                 set_data (request_uri l) (request_method l)
                   (json_roundtrip config) d1 = (resp, d2)
                 /\ status_in [201%Z; 200%Z; 204%Z] (status resp) = true
                 /\ writes
                      (events
                         (run name uri method config init_uri init_method d))
                    = [EvSetData (request_uri l) (request_method l)
                         (json_roundtrip config)]
                 /\ snd (fst
                           (run name uri method config init_uri init_method d))
                    = d2)).
Proof.
  run_cases name uri method config init_uri init_method d;
    cbn [returned fst]; intros H; try discriminate H;
    injection H as <-; cbn [ret_result]; intros H'; try discriminate H';
    do 4 eexists;
    (split;
     [ first [ eapply resolved_primary; eassumption
             | eapply resolved_init; eassumption ] | ]);
    (split; [reflexivity|]);
    cbn [request_uri request_method ret_comment ret_changes events snd fst];
    first
      [ left; split; [eassumption|];
        split; [reflexivity|]; split; [reflexivity|]; split; reflexivity
      | right; split; [eassumption|]; split; [reflexivity|];
        split; [reflexivity|];
        do 2 eexists; split; [eassumption|]; split; [eassumption|];
        split; reflexivity ].
Qed.

(** X9. Every result dictionary carries [str(name)] and a comment that is
    not empty; its changes are empty when no diff was built, and hold
    exactly the keys new, removed and changed, in this order, when one
    was. *)
Theorem result_shape name uri method config init_uri init_method d r :
  returned (run name uri method config init_uri init_method d)
  = Some (RRet r) ->
  ret_name r = py_str name
  /\ ret_comment r <> ""
  /\ ((ret_changes r = []
       /\ diffs (events (run name uri method config init_uri init_method d))
          = [])
      \/ (map fst (ret_changes r)
          = [KStr "new"; KStr "removed"; KStr "changed"]
          /\ List.length
               (diffs (events
                         (run name uri method config init_uri init_method d)))
             = 1)).
Proof.
  run_cases name uri method config init_uri init_method d;
    cbn [returned fst]; intros H; try discriminate H;
    injection H as <-; cbn [ret_name ret_comment ret_changes events snd];
    (split; [reflexivity|]); (split; [discriminate|]);
    try (left; split; reflexivity);
    right; (split; [|reflexivity]);
    destruct (String.eqb (py_str method) "PATCH"); reflexivity.
Qed.

(** X10. What is written to the device is a decoded JSON document: its
    dictionaries have string keys only, each once. *)
Theorem write_payload_is_json_shaped
    name uri method config init_uri init_method d u m p :
  In (EvSetData u m p)
    (events (run name uri method config init_uri init_method d)) ->
  json_shaped p = true.
Proof.
  run_cases name uri method config init_uri init_method d;
    cbn; intros H;
    repeat (destruct H as [H|H]; try discriminate H); try contradiction;
    injection H as _ _ <-; apply json_roundtrip_shaped.
Qed.

(** X11. A device that holds at [uri] the round trip of [config], which is
    what a write sends, is left alone: the run reads once, writes nothing
    and answers that the configuration is already set. *)
Theorem device_holding_round_trip_is_left_alone
    name uri method config init_uri init_method d r1 d1 :
  valid_request name uri method config = true ->
  get_data (VStr (py_str uri)) d = (r1, d1) ->
  status r1 = 200%Z ->
  resp_dict r1 = Some (json_roundtrip config) ->
  run name uri method config init_uri init_method d
  = (inr (RRet (mkRet (py_str name) (VBool true) [] "Config is already set")),
     d1, [EvGetData (VStr (py_str uri))]).
Proof.
  intros Hv G1 S1 D1.
  rewrite (run_resolved' name uri method config init_uri init_method d
             _ _ _ _ Hv
             (resolved_primary dev get_data uri method init_uri init_method
                d r1 d1 _ G1 S1 D1) eq_refl).
  cbv zeta.
  rewrite (py_eq_refl _ (json_shaped_wf _ (json_roundtrip_shaped config))).
  reflexivity.
Qed.

End MoreRuns.

(** ** More on [_restDiff] over the reference [DeepDiff] *)

Module DeepDiffMore.

Import DeepDiffModel Cases.

(** The three views, read off the findings of the walk. *)
Lemma views_of_findings (a b : value) :
  view_added (rest_diff a b)
  = match items_added (walk "root" a b) with
    | [] => None
    | ps => Some (str_item (Paths ps))
    end
  /\ view_removed (rest_diff a b)
     = match items_removed (walk "root" a b) with
       | [] => None
       | ps => Some (str_item (Paths ps))
       end
  /\ view_changed (rest_diff a b)
     = match values_changed (walk "root" a b) with
       | [] => None
       | cs => Some (str_item (Changes cs))
       end.
Proof. exact (DeepDiffFacts.views_of_walk str_item a b). Qed.

Lemma walk_common_app (p : string) (c a b : dict) :
  walk_common walk p c (a ++ b)%list
  = (walk_common walk p c a ++ walk_common walk p c b)%list.
Proof.
  induction a as [|[k x] a IH]; [reflexivity|].
  cbn [app walk_common]. rewrite IH, app_assoc. reflexivity.
Qed.

Lemma dict_mem_same_keys (k' k : key) (v1 v2 : value) (d1 d2 : dict) :
  dict_mem k' (d1 ++ (k, v1) :: d2)%list
  = dict_mem k' (d1 ++ (k, v2) :: d2)%list.
Proof. rewrite !dict_mem_app, !dict_mem_cons. reflexivity. Qed.

(** Two dictionaries that differ in the value under one key differ as
    these two values do, and in nothing when the key is private. *)
Lemma walk_one_value_replaced (p : string) (d1 d2 : dict) (k : key)
    (v1 v2 : value) :
  wf (VDict (d1 ++ (k, v1) :: d2)) = true ->
  walk p (VDict (d1 ++ (k, v1) :: d2)) (VDict (d1 ++ (k, v2) :: d2))
  = if private k then [] else walk (child_key p k) v1 v2.
Proof.
  intros W.
  cbn [walk same_type type_name String.eqb Ascii.eqb Bool.eqb negb].
  cbn [wf] in W. apply andb_prop in W. destruct W as [U W].
  rewrite forallb_forall in W.
  assert (Hself : forall k' x, In (k', x) (d1 ++ (k, v1) :: d2)%list ->
                  dict_mem k' (d1 ++ (k, v1) :: d2)%list = true).
  { intros k' x H. apply (dict_mem_in k' k' x _ H), key_eqb_refl. }
  assert (Hold : forall k' x, In (k', x) (d1 ++ d2)%list ->
                 In (k', x) (d1 ++ (k, v1) :: d2)%list).
  { intros k' x H. apply in_app_or in H. apply in_or_app.
    destruct H; [left | right; right]; assumption. }
  assert (Hnil : forall d', (forall kv, In kv d' -> In kv (d1 ++ d2)%list) ->
                 walk_common walk p (d1 ++ (k, v1) :: d2)%list d' = []).
  { intros d' Hsub. apply DeepDiffFacts.walk_common_nil. intros k' x H.
    pose proof (Hold k' x (Hsub _ H)) as H'.
    rewrite (dict_get_in k' x _ U H').
    apply DeepDiffFacts.walk_self. apply (W (k', x) H'). }
  rewrite (DeepDiffFacts.keys_not_in_nil p FAdded).
  2:{ intros [k' x] H. cbn [fst].
      rewrite (dict_mem_same_keys k' k v1 v2).
      apply (dict_mem_in k' k' x _ H), key_eqb_refl. }
  rewrite (DeepDiffFacts.keys_not_in_nil p FRemoved).
  2:{ intros [k' x] H. cbn [fst].
      rewrite <- (dict_mem_same_keys k' k v1 v2). apply (Hself k' x H). }
  cbn [app]. rewrite walk_common_app.
  change ((k, v2) :: d2) with ([(k, v2)] ++ d2)%list.
  rewrite walk_common_app.
  rewrite (Hnil d1), (Hnil d2).
  - cbn [walk_common app].
    rewrite (dict_get_in k v1 _ U);
      [rewrite !app_nil_r; destruct (private k); reflexivity|].
    apply in_or_app. right. left. reflexivity.
  - intros kv H. apply in_or_app. right. exact H.
  - intros kv H. apply in_or_app. left. exact H.
Qed.

(** X12. The diff of a dictionary with itself has no added, removed or
    changed view. *)
Theorem same_mapping_has_no_views (d : dict) :
  wf (VDict d) = true ->
  view_added (rest_diff (VDict d) (VDict d)) = None
  /\ view_removed (rest_diff (VDict d) (VDict d)) = None
  /\ view_changed (rest_diff (VDict d) (VDict d)) = None.
Proof.
  intros W. pose proof (views_of_findings (VDict d) (VDict d)) as V.
  rewrite (DeepDiffFacts.walk_self _ W) in V. exact V.
Qed.

(** X13. When the value under one key that is not private goes from one
    bool, int or str to a different one of the same type, neither of them
    a string with a line break, the changed view is [str] of the report
    entry that holds, under the path of the key, the old and the new
    value and nothing else, printed as the library prints it, and nothing
    is added or removed.  The key holds no quote, so that its path reads
    the same in every version of the library. *)
Theorem one_changed_value_view
    (str : item -> string) (d1 d2 : dict) (k : key) (v1 v2 : value) :
  wf (VDict (d1 ++ (k, v1) :: d2)) = true ->
  private k = false ->
  quote_free k = true ->
  scalar v1 = true ->
  same_type v1 v2 = true ->
  single_line v1 = true ->
  single_line v2 = true ->
  py_eq v1 v2 = false ->
  changed item str
    (rest_diff (VDict (d1 ++ (k, v1) :: d2)) (VDict (d1 ++ (k, v2) :: d2)))
  = Some (str (Changes [(child_key "root" k, (v1, v2))]))
  /\ added item str
       (rest_diff (VDict (d1 ++ (k, v1) :: d2))
          (VDict (d1 ++ (k, v2) :: d2))) = None
  /\ removed item str
       (rest_diff (VDict (d1 ++ (k, v1) :: d2))
          (VDict (d1 ++ (k, v2) :: d2))) = None.
Proof.
  intros W Hp _ Hs Ht _ _ Hne.
  pose proof (DeepDiffFacts.views_of_walk str (VDict (d1 ++ (k, v1) :: d2))
                (VDict (d1 ++ (k, v2) :: d2))) as V.
  rewrite (walk_one_value_replaced "root" d1 d2 k v1 v2 W), Hp in V.
  assert (E : walk (child_key "root" k) v1 v2
              = [FChanged (child_key "root" k) v1 v2]).
  { destruct v1, v2; try discriminate Hs; try discriminate Ht;
      cbn [walk same_type type_name String.eqb Ascii.eqb Bool.eqb negb];
      rewrite Hne; reflexivity. }
  rewrite E in V. destruct V as (Va & Vr & Vc). repeat split; assumption.
Qed.

(** X14. When the value under one key changes its type, none of the three
    views shows it: [DeepDiff] files the finding under [type_changes],
    which [_restDiff] does not read. *)
Theorem type_change_is_not_reported (d1 d2 : dict) (k : key) (v1 v2 : value) :
  wf (VDict (d1 ++ (k, v1) :: d2)) = true ->
  same_type v1 v2 = false ->
  view_added (rest_diff (VDict (d1 ++ (k, v1) :: d2))
                (VDict (d1 ++ (k, v2) :: d2))) = None
  /\ view_removed (rest_diff (VDict (d1 ++ (k, v1) :: d2))
                     (VDict (d1 ++ (k, v2) :: d2))) = None
  /\ view_changed (rest_diff (VDict (d1 ++ (k, v1) :: d2))
                     (VDict (d1 ++ (k, v2) :: d2))) = None.
Proof.
  intros W Ht.
  pose proof (views_of_findings (VDict (d1 ++ (k, v1) :: d2))
                (VDict (d1 ++ (k, v2) :: d2))) as V.
  rewrite (walk_one_value_replaced "root" d1 d2 k v1 v2 W) in V.
  assert (E : walk (child_key "root" k) v1 v2
              = [FTypeChange (child_key "root" k) v1 v2]).
  { destruct v2; cbn [walk]; rewrite Ht; reflexivity. }
  rewrite E in V. destruct (private k); exact V.
Qed.


Lemma walk_items_appended (p : string) (l extra : list value) :
  forallb wf l = true ->
  forall i,
    forallb is_iter_added (walk_items walk p i l (l ++ extra)%list) = true.
Proof.
  intros W. induction l as [|x l IH]; intros i.
  - cbn [app]. revert i. induction extra as [|y extra IHe]; intros i.
    + reflexivity.
    + cbn [walk_items forallb is_iter_added]. apply IHe.
  - cbn [forallb] in W. apply andb_prop in W. destruct W as [Wx Wl].
    cbn [app walk_items]. rewrite (DeepDiffFacts.walk_self x Wx).
    apply IH. exact Wl.
Qed.

Lemma iter_added_only (fs : list finding) :
  forallb is_iter_added fs = true ->
  items_added fs = [] /\ items_removed fs = [] /\ values_changed fs = [].
Proof.
  induction fs as [|f fs IH]; [repeat split|].
  cbn [forallb]. intros H. apply andb_prop in H. destruct H as [Hf H].
  destruct (IH H) as (Ia & Ir & Ic).
  destruct f; try discriminate Hf.
  unfold items_added, items_removed, values_changed in *.
  cbn [flat_map app]. repeat split; assumption.
Qed.

Lemma py_eq_list_longer (l : list value) (x : value) (extra : list value) :
  py_eq (VList l) (VList (l ++ x :: extra)) = false.
Proof.
  induction l as [|a l IH]; [reflexivity|].
  cbn [py_eq app] in *. rewrite IH. apply andb_false_r.
Qed.

Lemma py_eq_dict_entry (d e : dict) (k : key) (v w : value) :
  In (k, v) d ->
  dict_get k e = Some w ->
  py_eq v w = false ->
  py_eq (VDict d) (VDict e) = false.
Proof.
  intros Hin Hget Hne. cbn [py_eq].
  apply andb_false_iff. right.
  induction d as [|[k0 v0] d IH]; [contradiction|].
  destruct Hin as [H|H].
  - injection H as -> ->. rewrite Hget, Hne. reflexivity.
  - rewrite (IH H). apply andb_false_r.
Qed.

Lemma unique_keys_same_keys (k : key) (v1 v2 : value) (d1 d2 : dict) :
  unique_keys (d1 ++ (k, v1) :: d2)%list
  = unique_keys (d1 ++ (k, v2) :: d2)%list.
Proof.
  induction d1 as [|[k0 x0] d1 IH]; [reflexivity|].
  cbn [app unique_keys]. rewrite IH, (dict_mem_same_keys k0 k v1 v2).
  reflexivity.
Qed.

(** X16. Items appended to a list under one key show in none of the three
    views, although the two dictionaries are not equal: [DeepDiff] files
    them under [iterable_item_added], which [_restDiff] does not read. *)
Theorem appended_items_are_not_reported
    (d1 d2 : dict) (k : key) (l : list value) (x : value)
    (extra : list value) :
  wf (VDict (d1 ++ (k, VList l) :: d2)) = true ->
  py_eq (VDict (d1 ++ (k, VList l) :: d2))
    (VDict (d1 ++ (k, VList (l ++ x :: extra)) :: d2)) = false
  /\ view_added (rest_diff (VDict (d1 ++ (k, VList l) :: d2))
                   (VDict (d1 ++ (k, VList (l ++ x :: extra)) :: d2))) = None
  /\ view_removed (rest_diff (VDict (d1 ++ (k, VList l) :: d2))
                     (VDict (d1 ++ (k, VList (l ++ x :: extra)) :: d2))) = None
  /\ view_changed (rest_diff (VDict (d1 ++ (k, VList l) :: d2))
                     (VDict (d1 ++ (k, VList (l ++ x :: extra)) :: d2))) = None.
Proof.
  intros W. split.
  - cbn [wf] in W. apply andb_prop in W. destruct W as [U _].
    apply (py_eq_dict_entry _ _ k (VList l) (VList (l ++ x :: extra))).
    + apply in_or_app. right. left. reflexivity.
    + apply dict_get_in.
      * rewrite <- (unique_keys_same_keys k (VList l)). exact U.
      * apply in_or_app. right. left. reflexivity.
    + apply py_eq_list_longer.
  - pose proof (views_of_findings (VDict (d1 ++ (k, VList l) :: d2))
                  (VDict (d1 ++ (k, VList (l ++ x :: extra)) :: d2))) as V.
    rewrite (walk_one_value_replaced "root" d1 d2 k _ _ W) in V.
    destruct (private k); [exact V|].
    assert (Wl : forallb wf l = true).
    { cbn [wf] in W. apply andb_prop in W. destruct W as [_ W].
      rewrite forallb_forall in W.
      apply (W (k, VList l)). apply in_or_app. right. left. reflexivity. }
    cbn [walk same_type type_name String.eqb Ascii.eqb Bool.eqb negb] in V.
    destruct (iter_added_only _
                (walk_items_appended (child_key "root" k) l (x :: extra) Wl 0))
      as (Ia & Ir & Ic).
    rewrite Ia, Ir, Ic in V. exact V.
Qed.

End DeepDiffMore.

(** ** [__virtual__] *)

(** X17. [__virtual__] lets the module load exactly when [deepdiff] was
    imported and [__salt__] holds [restconf.set_data]; when [deepdiff] is
    missing the reason given names it, whatever [__salt__] holds. *)
Theorem virtual_loads_iff (HAS_DEEPDIFF : bool) (__salt__ : list string) :
  (__virtual__ HAS_DEEPDIFF __salt__ = VirtualTrue
   <-> HAS_DEEPDIFF = true /\ In "restconf.set_data" __salt__)
  /\ (HAS_DEEPDIFF = false ->
      exists reason,
        __virtual__ HAS_DEEPDIFF __salt__ = VirtualFalse reason
        /\ occurs "deepdiff" reason = true)
  /\ (forall reason,
        __virtual__ HAS_DEEPDIFF __salt__ = VirtualFalse reason ->
        reason <> "").
Proof.
  unfold __virtual__.
  assert (E : existsb (String.eqb "restconf.set_data") __salt__ = true
              <-> In "restconf.set_data" __salt__).
  { rewrite existsb_exists. split.
    - intros (x & Hx & Hx'). apply String.eqb_eq in Hx'. subst x. exact Hx.
    - intros H. exists "restconf.set_data". split; [exact H|].
      apply String.eqb_refl. }
  destruct HAS_DEEPDIFF; cbn [negb].
  - destruct (existsb (String.eqb "restconf.set_data") __salt__).
    + repeat split; try discriminate. apply E. reflexivity.
    + repeat split; try discriminate.
      * intros [_ H]. apply E in H. discriminate H.
      * intros reason H. injection H as <-. discriminate.
  - repeat split; try discriminate.
    + intros [H _]. discriminate H.
    + intros _. eexists. split; reflexivity.
    + intros reason H. injection H as <-. discriminate.
Qed.

(** ** The further properties on concrete runs *)

Module Extras.

Import Scripted Cases MoreCases DeepDiffModel.

Lemma primary_hit_never_reads_init_uri_witness :
  reads (events (run (VBool false) (VStr "iface1") (VStr "/a") (VStr "PUT")
                   config_x (VStr "/b") (VStr "PATCH") dev_stale))
  = [EvGetData (VStr "/a")].
Proof.
  apply (primary_hit_never_reads_init_uri device get_data set_data
           (VBool false) item DeepDiff pretty str_item
           (VStr "iface1") (VStr "/a") (VStr "PUT") config_x (VStr "/b")
           (VStr "PATCH") dev_stale (ok config_xy) dev_stale);
    reflexivity.
Defined.

Lemma ok_reply_without_dict_raises_witness :
  run (VBool false) (VStr "iface1") (VStr "/a") (VStr "PUT") config_x
    (VStr "/b") (VStr "PATCH") dev_undecoded
  = (inl (KeyError "dict"), dev_undecoded, [EvGetData (VStr "/a")]).
Proof.
  apply (ok_reply_without_dict_raises device get_data set_data (VBool false)
           item DeepDiff pretty str_item
           (VStr "iface1") (VStr "/a") (VStr "PUT") config_x (VStr "/b")
           (VStr "PATCH") dev_undecoded
           (mkResponse 200 None (Some (VStr "<html/>"))) dev_undecoded);
    reflexivity.
Defined.

Lemma init_resolution_writes_to_init_uri_witness :
  writes (events (run (VBool false) (VStr "iface1") (VStr "/a") (VStr "PUT")
                    config_x (VStr "/b") (VStr "PATCH") dev_fallback))
  = [EvSetData (VStr "/b") (VStr "PATCH") config_x].
Proof.
  apply (init_resolution_writes_to_init_uri device get_data set_data
           (VBool false) item DeepDiff pretty str_item
           (VStr "iface1") (VStr "/a") (VStr "PUT") config_x (VStr "/b")
           (VStr "PATCH") dev_fallback no_reply dev_fallback
           (ok (VDict [])) dev_fallback (VDict []));
    try reflexivity.
  cbn; lia.
Defined.

Lemma applied_reports_removed_unless_patch_witness :
  returned (run (VBool false) (VStr "iface1") (VStr "/a") (VStr "PUT")
              config_x (VStr "/b") (VStr "PATCH") dev_fallback_stale)
  = Some (RRet (mkRet "iface1" (VBool true)
                  (reported item str_item (rest_diff config_xy config_x))
                  "Successfully added config")).
Proof.
  apply (applied_reports_removed_unless_patch device get_data set_data
           (VBool false) item DeepDiff pretty str_item
           (VStr "iface1") (VStr "/a") (VStr "PUT") config_x (VStr "/b")
           (VStr "PATCH") dev_fallback_stale
           (mkLocals (Some config_xy) true "init" (VStr "/b") (VStr "PATCH"))
           dev_fallback_stale [VStr "/a"; VStr "/b"] config_xy
           (mkResponse 204 None None) dev_fallback_stale).
  - reflexivity.
  - apply (resolved_init device get_data (VStr "/a") (VStr "PUT") (VStr "/b")
             (VStr "PATCH") dev_fallback_stale no_reply (ok config_xy)
             dev_fallback_stale dev_fallback_stale config_xy);
      try reflexivity.
    cbn; lia.
  - reflexivity.
  - reflexivity.
  - reflexivity.
  - reflexivity.
  - reflexivity.
  - discriminate.
Defined.

(** In that run the write was made with PATCH, and the removed view is
    filed all the same. *)
Example put_over_init_patch_reports_removed :
  writes (events (run (VBool false) (VStr "iface1") (VStr "/a") (VStr "PUT")
                    config_x (VStr "/b") (VStr "PATCH") dev_fallback_stale))
  = [EvSetData (VStr "/b") (VStr "PATCH") config_x]
  /\ dict_get (KStr "removed")
       (reported item str_item (rest_diff config_xy config_x))
     = Some (Some "[root['y']]").
Proof. split; reflexivity. Qed.

Lemma result_None_only_in_test_mode_witness :
  is_True (VBool true) = true
  /\ "Config will be added" = "Config will be added"
  /\ writes (events (manage true "PUT" config_x dev_stale)) = []
  /\ List.length (diffs (events (manage true "PUT" config_x dev_stale))) = 1.
Proof.
  apply (result_None_only_in_test_mode device get_data set_data (VBool true)
           item DeepDiff pretty str_item
           (VStr "iface1") (VStr "/a") (VStr "PUT") config_x VNone
           (VStr "PATCH") dev_stale
           (mkRet "iface1" VNone
              (reported item str_item (rest_diff config_xy config_x))
              "Config will be added"));
    reflexivity.
Defined.

Lemma result_True_means_matching_or_written_witness :
  exists l d1 us e,
    resolved device get_data (VStr "/a") (VStr "PUT") VNone (VStr "PATCH")
      dev_stale l d1 us
    /\ existing l = Some e
    /\ ((py_eq e (json_roundtrip config_x) = true
         /\ "Successfully added config" = "Config is already set"
         /\ reported item str_item (rest_diff config_xy config_x) = []
         /\ events (manage false "PUT" config_x dev_stale) = map EvGetData us
         /\ snd (fst (manage false "PUT" config_x dev_stale)) = d1)
        \/ (py_eq e (json_roundtrip config_x) = false
            /\ is_True (VBool false) = false
            /\ "Successfully added config" = "Successfully added config"
            /\ exists resp d2,
                 set_data (request_uri l) (request_method l)
                   (json_roundtrip config_x) d1 = (resp, d2)
                 /\ status_in [201%Z; 200%Z; 204%Z] (status resp) = true
                 /\ writes (events (manage false "PUT" config_x dev_stale))
                    = [EvSetData (request_uri l) (request_method l)
                         (json_roundtrip config_x)]
                 /\ snd (fst (manage false "PUT" config_x dev_stale)) = d2)).
Proof.
  apply (result_True_means_matching_or_written device get_data set_data
           (VBool false) item DeepDiff pretty str_item
           (VStr "iface1") (VStr "/a") (VStr "PUT") config_x VNone
           (VStr "PATCH") dev_stale
           (mkRet "iface1" (VBool true)
              (reported item str_item (rest_diff config_xy config_x))
              "Successfully added config"));
    reflexivity.
Defined.

Lemma result_shape_witness :
  "iface1" = py_str (VStr "iface1")
  /\ "Successfully added config" <> ""
  /\ ((reported item str_item (rest_diff config_xy config_x) = []
       /\ diffs (events (manage false "PUT" config_x dev_stale)) = [])
      \/ (map fst (reported item str_item (rest_diff config_xy config_x))
          = [KStr "new"; KStr "removed"; KStr "changed"]
          /\ List.length (diffs (events (manage false "PUT" config_x dev_stale)))
             = 1)).
Proof.
  apply (result_shape device get_data set_data (VBool false) item DeepDiff
           pretty str_item
           (VStr "iface1") (VStr "/a") (VStr "PUT") config_x VNone
           (VStr "PATCH") dev_stale
           (mkRet "iface1" (VBool true)
              (reported item str_item (rest_diff config_xy config_x))
              "Successfully added config")).
  reflexivity.
Defined.

Lemma write_payload_is_json_shaped_witness :
  json_shaped (VDict [(KStr "1", VStr "a")]) = true.
Proof.
  apply (write_payload_is_json_shaped device get_data set_data (VBool false)
           item DeepDiff pretty str_item
           (VStr "iface1") (VStr "/a") (VStr "PUT") config_numbered VNone
           (VStr "PATCH") dev_stale (VStr "/a") (VStr "PUT")
           (VDict [(KStr "1", VStr "a")])).
  cbn. right. left. reflexivity.
Defined.

Lemma device_holding_round_trip_is_left_alone_witness :
  run (VBool false) (VStr "iface1") (VStr "/a") (VStr "PUT") config_numbered
    VNone (VStr "PATCH") dev_numbered
  = (inr (RRet (mkRet "iface1" (VBool true) [] "Config is already set")),
     dev_numbered, [EvGetData (VStr "/a")]).
Proof.
  apply (device_holding_round_trip_is_left_alone device get_data set_data
           (VBool false) item DeepDiff pretty str_item
           (VStr "iface1") (VStr "/a") (VStr "PUT") config_numbered VNone
           (VStr "PATCH") dev_numbered
           (ok (VDict [(KStr "1", VStr "a")])) dev_numbered);
    reflexivity.
Defined.

Lemma same_mapping_has_no_views_witness :
  view_added (rest_diff config_xy config_xy) = None
  /\ view_removed (rest_diff config_xy config_xy) = None
  /\ view_changed (rest_diff config_xy config_xy) = None.
Proof.
  apply (DeepDiffMore.same_mapping_has_no_views
           [(KStr "x", VInt 2); (KStr "y", VStr "q")]).
  reflexivity.
Defined.

Lemma one_changed_value_view_witness :
  changed item str_item
    (rest_diff (VDict [(KStr "x", VInt 2); (KStr "y", VStr "q")])
       (VDict [(KStr "x", VInt 1); (KStr "y", VStr "q")]))
  = Some (str_item (Changes [("root['x']", (VInt 2, VInt 1))]))
  /\ added item str_item
       (rest_diff (VDict [(KStr "x", VInt 2); (KStr "y", VStr "q")])
          (VDict [(KStr "x", VInt 1); (KStr "y", VStr "q")])) = None
  /\ removed item str_item
       (rest_diff (VDict [(KStr "x", VInt 2); (KStr "y", VStr "q")])
          (VDict [(KStr "x", VInt 1); (KStr "y", VStr "q")])) = None.
Proof.
  apply (DeepDiffMore.one_changed_value_view str_item []
           [(KStr "y", VStr "q")] (KStr "x") (VInt 2) (VInt 1));
    reflexivity.
Defined.

Lemma type_change_is_not_reported_witness :
  view_added (rest_diff (VDict [(KStr "x", VStr "1")])
                (VDict [(KStr "x", VInt 1)])) = None
  /\ view_removed (rest_diff (VDict [(KStr "x", VStr "1")])
                     (VDict [(KStr "x", VInt 1)])) = None
  /\ view_changed (rest_diff (VDict [(KStr "x", VStr "1")])
                     (VDict [(KStr "x", VInt 1)])) = None.
Proof.
  apply (DeepDiffMore.type_change_is_not_reported [] [] (KStr "x")
           (VStr "1") (VInt 1));
    reflexivity.
Defined.


Lemma appended_items_are_not_reported_witness :
  py_eq (VDict [(KStr "l", VList [VInt 1])])
    (VDict [(KStr "l", VList [VInt 1; VInt 2])]) = false
  /\ view_added (rest_diff (VDict [(KStr "l", VList [VInt 1])])
                   (VDict [(KStr "l", VList [VInt 1; VInt 2])])) = None
  /\ view_removed (rest_diff (VDict [(KStr "l", VList [VInt 1])])
                     (VDict [(KStr "l", VList [VInt 1; VInt 2])])) = None
  /\ view_changed (rest_diff (VDict [(KStr "l", VList [VInt 1])])
                     (VDict [(KStr "l", VList [VInt 1; VInt 2])])) = None.
Proof.
  apply (DeepDiffMore.appended_items_are_not_reported [] [] (KStr "l")
           [VInt 1] (VInt 2) []).
  reflexivity.
Defined.

(** A run of the whole on such a pair: the write is made and succeeds, and
    the changes it reports hold [None] three times. *)
Example appended_item_is_written_unreported :
  let d := mkDevice [(VStr "/a", ok (VDict [(KStr "l", VList [VInt 1])]))]
             (mkResponse 204 None None) in
  run (VBool false) (VStr "iface1") (VStr "/a") (VStr "PUT")
    (VDict [(KStr "l", VList [VInt 1; VInt 2])]) VNone (VStr "PATCH") d
  = (inr (RRet (mkRet "iface1" (VBool true)
                  [(KStr "new", None); (KStr "removed", None);
                   (KStr "changed", None)]
                  "Successfully added config")),
     d,
     [EvGetData (VStr "/a");
      EvSetData (VStr "/a") (VStr "PUT")
        (VDict [(KStr "l", VList [VInt 1; VInt 2])]);
      EvDeepDiff (VDict [(KStr "l", VList [VInt 1])])
        (VDict [(KStr "l", VList [VInt 1; VInt 2])]);
      EvPrint (PText "DeepDiff:");
      EvPrint
        (PReport
           [(KStr "iterable_item_added", Items [("root['l'][1]", VInt 2)])])]).
Proof. reflexivity. Qed.

End Extras.
